(** * Athletic optimization scripts: prompt dispatch and persistence

    A shallow embedding of the eight scripts of the repository
    ([test_claude.py], [system_architect.py], [data_engineer.py],
    [backend_developer.py], [data_analyst.py], [project_manager.py],
    [qa_devops.py], [briefing_generator.py]) and the properties of their
    observable behaviour: what is printed, what is written, in which
    order, and what happens on each failure. *)

From Stdlib Require Import NArith Ascii String List Lia.
From stdpp Require Import gmap strings list fin_maps.

Local Open Scope string_scope.
Local Open Scope list_scope.

(** ** Base64 (the [base64] module of the Python standard library)

    [base64.standard_b64encode] is RFC 4648 section 4: three octets become
    four characters of the standard alphabet, a trailing group of one or two
    octets is padded with [=]. *)
Module Base64.

Definition alphabet : string :=
  "ABCDEFGHIJKLMNOPQRSTUVWXYZabcdefghijklmnopqrstuvwxyz0123456789+/".

Definition pad : ascii := "="%char.

(** The character of a six-bit value. *)
Definition b64char (n : N) : ascii :=
  match String.get (N.to_nat n) alphabet with
  | Some c => c
  | None => pad
  end.

Fixpoint index_from (c : ascii) (s : string) (i : N) : option N :=
  match s with
  | EmptyString => None
  | String d s' => if Ascii.eqb c d then Some i else index_from c s' (N.succ i)
  end.

(** The six-bit value of a character of the alphabet. *)
Definition b64val (c : ascii) : option N := index_from c alphabet 0%N.

Definition byte_val (a : ascii) : N := N_of_ascii a.
Definition byte_of (n : N) : ascii := ascii_of_N n.

(** [standard_b64encode]: bytes in, ASCII bytes out. *)
Fixpoint standard_b64encode (bs : string) : string :=
  match bs with
  | EmptyString => EmptyString
  | String a EmptyString =>
      let x := byte_val a in
      String (b64char (x / 4))
        (String (b64char ((x mod 4) * 16))
           (String pad (String pad EmptyString)))
  | String a (String b EmptyString) =>
      let x := byte_val a in
      let y := byte_val b in
      String (b64char (x / 4))
        (String (b64char ((x mod 4) * 16 + y / 16))
           (String (b64char ((y mod 16) * 4)) (String pad EmptyString)))
  | String a (String b (String c rest)) =>
      let x := byte_val a in
      let y := byte_val b in
      let z := byte_val c in
      String (b64char (x / 4))
        (String (b64char ((x mod 4) * 16 + y / 16))
           (String (b64char ((y mod 16) * 4 + z / 64))
              (String (b64char (z mod 64)) (standard_b64encode rest))))
  end%N.

(** [standard_b64decode] on well-formed input (the validating decoder):
    four characters at a time, padding only in the last group. *)
Fixpoint standard_b64decode (cs : string) : option string :=
  match cs with
  | EmptyString => Some EmptyString
  | String c1 (String c2 (String c3 (String c4 rest))) =>
      match b64val c1, b64val c2 with
      | Some v1, Some v2 =>
          if Ascii.eqb c4 pad then
            match rest with
            | EmptyString =>
                if Ascii.eqb c3 pad then
                  Some (String (byte_of (v1 * 4 + v2 / 16)) EmptyString)
                else
                  match b64val c3 with
                  | Some v3 =>
                      Some (String (byte_of (v1 * 4 + v2 / 16))
                              (String (byte_of ((v2 mod 16) * 16 + v3 / 4))
                                 EmptyString))
                  | None => None
                  end
            | String _ _ => None
            end
          else
            match b64val c3, b64val c4, standard_b64decode rest with
            | Some v3, Some v4, Some bs =>
                Some (String (byte_of (v1 * 4 + v2 / 16))
                        (String (byte_of ((v2 mod 16) * 16 + v3 / 4))
                           (String (byte_of ((v3 mod 4) * 64 + v4)) bs)))
            | _, _, _ => None
            end
      | _, _ => None
      end
  | _ => None
  end%N.

End Base64.

(** ** Requests, responses and errors *)

(** The exceptions that can end a script. [IOError] is Python's [OSError]
    ([FileNotFoundError], [PermissionError], ...); [IndexError] and
    [AttributeError] come from [message.content[0].text]. *)
Inductive error : Type :=
  | AuthenticationError
  | RequestValidationError
  | ServiceError
  | IOError
  | IndexError
  | AttributeError.

Global Instance error_eq_dec : EqDecision error.
Proof. solve_decision. Defined.

Record ImageSource : Type := {
  source_type : string;
  media_type : string;
  source_data : string
}.

Inductive ContentBlock : Type :=
  | Text (text : string)
  | Image (source : ImageSource).

Inductive Role : Type := user | assistant.

(** The [content] of a message is either a plain string or a list of
    blocks; the scripts use both forms. *)
Inductive Content : Type :=
  | Plain (s : string)
  | Blocks (bs : list ContentBlock).

Record Turn : Type := { role : Role; turn_content : Content }.

Record Request : Type := {
  model : string;
  max_tokens : N;
  system : option string;
  messages : list Turn
}.

Record Response : Type := { content : list ContentBlock }.

(** ** The world of a script run *)

Record File : Type := {
  data : string;
  readable : bool;
  writable : bool
}.

(** What a run does, in order. [EvCreate] is one invocation of
    [client.messages.create] with its outcome. *)
Inductive Event : Type :=
  | EvCreate (req : Request) (res : error + Response)
  | EvPrint (s : string)
  | EvOpenRead (path : string)
  | EvOpenWrite (path : string)
  | EvWrite (path : string) (s : string)
  | EvClose (path : string).

(** [environ] is [os.environ]; [dotenv] the parsed [.env] file when there
    is one; [files] the working directory; [can_create] whether a new file
    may be created there; [free_space] how many more bytes the disk takes;
    [trace] the events of the run so far, oldest first. *)
Record World : Type := {
  environ : gmap string string;
  dotenv : option (gmap string string);
  files : gmap string File;
  can_create : bool;
  free_space : nat;
  trace : list Event
}.

Definition set_environ (e : gmap string string) (w : World) : World :=
  {| environ := e; dotenv := dotenv w; files := files w;
     can_create := can_create w; free_space := free_space w;
     trace := trace w |}.

Definition set_disk (fs : gmap string File) (space : nat) (w : World) : World :=
  {| environ := environ w; dotenv := dotenv w; files := fs;
     can_create := can_create w; free_space := space;
     trace := trace w |}.

Definition log (ev : Event) (w : World) : World :=
  {| environ := environ w; dotenv := dotenv w; files := files w;
     can_create := can_create w; free_space := free_space w;
     trace := trace w ++ [ev] |}.

(** A process starts with nothing done yet. *)
Definition fresh (w : World) : World :=
  {| environ := environ w; dotenv := dotenv w; files := files w;
     can_create := can_create w; free_space := free_space w;
     trace := [] |}.

Definition set_data (s : string) (f : File) : File :=
  {| data := s; readable := readable f; writable := writable f |}.

Definition new_file : File :=
  {| data := ""; readable := true; writable := true |}.

(** ** The monad of script code: state and exceptions

    An exception keeps the effects performed before it. *)
Definition M (A : Type) : Type := World -> (error + A) * World.

Global Instance M_ret : MRet M := fun A x w => (inr x, w).

Global Instance M_bind : MBind M := fun A B k m w =>
  match m w with
  | (inl e, w') => (inl e, w')
  | (inr x, w') => k x w'
  end.

Definition raise {A : Type} (e : error) : M A := fun w => (inl e, w).

Definition nl : string := String "010"%char EmptyString.

(** [print(s)]. *)
Definition print (s : string) : M unit := fun w => (inr tt, log (EvPrint s) w).

(** What standard output holds after a trace: every printed string
    followed by a newline. *)
Fixpoint stdout_of (evs : list Event) : string :=
  match evs with
  | [] => ""
  | EvPrint s :: evs' => s +:+ nl +:+ stdout_of evs'
  | _ :: evs' => stdout_of evs'
  end.

Definition stdout (w : World) : string := stdout_of (trace w).

(** The invocations of [client.messages.create] in a trace. *)
Fixpoint creates_of (evs : list Event) : list (Request * (error + Response)) :=
  match evs with
  | [] => []
  | EvCreate req res :: evs' => (req, res) :: creates_of evs'
  | _ :: evs' => creates_of evs'
  end.

(** [load_dotenv()]: variables of the [.env] file enter the environment,
    those already set keep their value. *)
Definition load_dotenv : M unit := fun w =>
  match dotenv w with
  | Some vars => (inr tt, set_environ (environ w ∪ vars) w)
  | None => (inr tt, w)
  end.

(** [os.environ.get(name)]: [None] when the variable is not set. *)
Definition os_environ_get (name : string) : M (option string) := fun w =>
  (inr (environ w !! name), w).

(** *** Files *)

(** [with open(path, "rb") as f: f.read()]. *)
Definition read_binary (path : string) : M string := fun w =>
  match files w !! path with
  | Some f =>
      if readable f
      then (inr (data f), log (EvClose path) (log (EvOpenRead path) w))
      else (inl IOError, w)
  | None => (inl IOError, w)
  end.

(** [open(path, "w")]: an existing file is truncated, a missing one is
    created. *)
Definition open_write (path : string) : M string := fun w =>
  match files w !! path with
  | Some f =>
      if writable f
      then (inr path,
            log (EvOpenWrite path)
              (set_disk (<[path := set_data "" f]> (files w))
                 (free_space w + String.length (data f)) w))
      else (inl IOError, w)
  | None =>
      if can_create w
      then (inr path,
            log (EvOpenWrite path)
              (set_disk (<[path := new_file]> (files w)) (free_space w) w))
      else (inl IOError, w)
  end.

(** [f.write(s)]: appends; when the disk is full, what fits is written
    and the call raises. *)
Definition f_write (f : string) (s : string) : M unit := fun w =>
  match files w !! f with
  | Some fl =>
      if decide (String.length s <= free_space w)
      then (inr tt,
            log (EvWrite f s)
              (set_disk (<[f := set_data (data fl +:+ s) fl]> (files w))
                 (free_space w - String.length s) w))
      else
        let part := substring 0 (free_space w) s in
        (inl IOError,
         log (EvWrite f part)
           (set_disk (<[f := set_data (data fl +:+ part) fl]> (files w)) 0 w))
  | None => (inl IOError, w)
  end.

(** [with open(path, "w") as f: body]: the handle is released on every
    exit of the body. *)
Definition with_open_write {A : Type} (path : string) (body : string -> M A)
  : M A := fun w =>
  match open_write path w with
  | (inl e, w1) => (inl e, w1)
  | (inr f, w1) =>
      match body f w1 with
      | (r, w2) => (r, log (EvClose path) w2)
      end
  end.

(** ** The client library

    Modelled from the spec: the [anthropic] package is not part of the
    repository. Building a client never fails and keeps the key it is
    given; [client.messages.create] raises [AuthenticationError] when the
    client has no key (the absence is found only when the call is
    attempted), and otherwise returns or raises what the remote service
    answers. *)
Record Client : Type := { api_key : option string }.

(** Modelled from the spec: [anthropic.Anthropic(api_key=...)], which is
    not under [src/]; it stores the key and does not look at it. *)
Definition Anthropic (key : option string) : M Client :=
  mret {| api_key := key |}.

(** Modelled from the spec: [client.messages.create(...)], which is not
    under [src/]; a missing key is found here, as [AuthenticationError],
    and with a key the outcome is the remote service's. *)
Definition messages_create (remote : string -> Request -> error + Response)
    (client : Client) (req : Request) : M Response := fun w =>
  let res :=
    match api_key client with
    | None => inl AuthenticationError
    | Some k => remote k req
    end in
  (res, log (EvCreate req res) w).

(** [message.content[0].text]. *)
Definition content0_text (message : Response) : M string :=
  match content message with
  | [] => raise IndexError
  | Text t :: _ => mret t
  | Image _ :: _ => raise AttributeError
  end.

(** ** The scripts *)

Inductive Script : Type :=
  | TestClaude
  | SystemArchitect
  | DataEngineer
  | BackendDeveloper
  | DataAnalyst
  | ProjectManager
  | QaDevops
  | BriefingGenerator.

Global Instance Script_eq_dec : EqDecision Script.
Proof. solve_decision. Defined.

(** The two long prompt texts of a script; their wording plays no part in
    what follows. *)
Record Prompts : Type := { system_prompt : string; user_question : string }.

(** The constants in which the five role scripts after the architect
    differ: the output path, the two lines of the heading (each is written
    followed by two newlines) and the confirmation. *)
Record Guide : Type := {
  guide_path : string;
  guide_title : string;
  guide_subtitle : string;
  guide_saved : string
}.

Definition the_model : string := "claude-sonnet-4-20250514".

Definition saved_mark : string := nl +:+ "✅ ".

Definition data_engineer_guide : Guide := {|
  guide_path := "DATA_INTEGRATION_GUIDE.md";
  guide_title := "# Data Integration Guide";
  guide_subtitle :=
    "**Athletic Optimization System - API Integration Specifications**";
  guide_saved :=
    saved_mark +:+ "Data integration guide saved to DATA_INTEGRATION_GUIDE.md"
|}.

Definition backend_developer_guide : Guide := {|
  guide_path := "IMPLEMENTATION_CODE.md";
  guide_title := "# Implementation Code";
  guide_subtitle :=
    "**Athletic Optimization System - Core Python Modules**";
  guide_saved :=
    saved_mark +:+ "Implementation code saved to IMPLEMENTATION_CODE.md"
|}.

Definition data_analyst_guide : Guide := {|
  guide_path := "RECOMMENDATION_ENGINE.md";
  guide_title := "# Recommendation Engine Design";
  guide_subtitle :=
    "**Athletic Optimization System - Analysis & Decision Logic**";
  guide_saved :=
    saved_mark
    +:+ "Recommendation engine design saved to RECOMMENDATION_ENGINE.md"
|}.

Definition project_manager_guide : Guide := {|
  guide_path := "PROJECT_PLAN.md";
  guide_title := "# Project Integration Plan";
  guide_subtitle :=
    "**Athletic Optimization System - Master Execution Roadmap**";
  guide_saved := saved_mark +:+ "Project plan saved to PROJECT_PLAN.md"
|}.

Definition qa_devops_guide : Guide := {|
  guide_path := "QA_DEVOPS_GUIDE.md";
  guide_title := "# QA and DevOps Guide";
  guide_subtitle :=
    "**Athletic Optimization System - Testing & Deployment**";
  guide_saved := saved_mark +:+ "QA/DevOps guide saved to QA_DEVOPS_GUIDE.md"
|}.

Definition architecture_path : string := "ARCHITECTURE.md".
Definition architecture_title : string :=
  "# Athletic Optimization System Architecture".
Definition architecture_saved : string :=
  saved_mark +:+ "Architecture saved to ARCHITECTURE.md".

Definition briefing_path : string := "DAILY_BRIEFING.txt".
Definition briefing_saved : string :=
  saved_mark +:+ "Briefing saved to DAILY_BRIEFING.txt".
Definition oura_morning : string := "oura_morning.png".
Definition training_log : string := "training_log.png".

Definition api_key_name : string := "ANTHROPIC_API_KEY".

Definition test_request : Request :=
  {| model := the_model; max_tokens := 1024; system := None;
     messages :=
       [ {| role := user;
            turn_content := Plain "Say hello and confirm you're working!" |} ]
  |}.

Definition png : string := "image/png".

Definition image_block (b64 : string) : ContentBlock :=
  Image {| source_type := "base64"; media_type := png; source_data := b64 |}.

Section Scripts.

(** The hosted service: what it answers to a request made with a key. *)
Variable remote : string -> Request -> error + Response.

Variable texts : Script -> Prompts.

(** The head of every script: load the environment file, read the key,
    build the client. *)
Definition make_client : M Client :=
  load_dotenv ;;
  key ← os_environ_get api_key_name;
  Anthropic key.

Definition test_claude : M unit :=
  client ← make_client;
  message ← messages_create remote client test_request;
  t ← content0_text message;
  print t.

Definition role_request (p : Prompts) : Request :=
  {| model := the_model; max_tokens := 4000;
     system := Some (system_prompt p);
     messages :=
       [ {| role := user; turn_content := Plain (user_question p) |} ] |}.

Definition system_architect : M unit :=
  client ← make_client;
  message ← messages_create remote client
    (role_request (texts SystemArchitect));
  t ← content0_text message;
  print t ;;
  with_open_write architecture_path (fun f =>
    f_write f (architecture_title +:+ nl +:+ nl) ;;
    t' ← content0_text message;
    f_write f t') ;;
  print architecture_saved.

(** [data_engineer.py], [backend_developer.py], [data_analyst.py],
    [project_manager.py] and [qa_devops.py] are this program with their
    own constants. *)
Definition role_script (p : Prompts) (g : Guide) : M unit :=
  client ← make_client;
  message ← messages_create remote client (role_request p);
  output ← content0_text message;
  print output ;;
  with_open_write (guide_path g) (fun f =>
    f_write f (guide_title g +:+ nl +:+ nl) ;;
    f_write f (guide_subtitle g +:+ nl +:+ nl) ;;
    f_write f output) ;;
  print (guide_saved g).

Definition data_engineer : M unit :=
  role_script (texts DataEngineer) data_engineer_guide.
Definition backend_developer : M unit :=
  role_script (texts BackendDeveloper) backend_developer_guide.
Definition data_analyst : M unit :=
  role_script (texts DataAnalyst) data_analyst_guide.
Definition project_manager : M unit :=
  role_script (texts ProjectManager) project_manager_guide.
Definition qa_devops : M unit :=
  role_script (texts QaDevops) qa_devops_guide.

(** *** [briefing_generator.py] *)

(** The base64 text is ASCII, so [.decode("utf-8")] gives the same
    characters back. *)
Definition encode_image (image_path : string) : M string :=
  bytes ← read_binary image_path;
  mret (Base64.standard_b64encode bytes).

Definition briefing_request (oura_image training_image : string) : Request :=
  {| model := the_model; max_tokens := 3000;
     system := Some (system_prompt (texts BriefingGenerator));
     messages :=
       [ {| role := user;
            turn_content :=
              Blocks
                [ image_block oura_image;
                  image_block training_image;
                  Text "Generate my morning training briefing from these screenshots. Today is Tuesday, January 07, 2026. Week 12 training cycle." ] |} ] |}.

Definition generate_briefing (client : Client)
    (oura_screenshot_path training_log_path : string) : M string :=
  oura_image ← encode_image oura_screenshot_path;
  training_image ← encode_image training_log_path;
  message ← messages_create remote client
    (briefing_request oura_image training_image);
  content0_text message.

Definition briefing_generator : M unit :=
  client ← make_client;
  briefing ← generate_briefing client oura_morning training_log;
  print briefing ;;
  with_open_write briefing_path (fun f => f_write f briefing) ;;
  print briefing_saved.

Definition main (s : Script) : M unit :=
  match s with
  | TestClaude => test_claude
  | SystemArchitect => system_architect
  | DataEngineer => data_engineer
  | BackendDeveloper => backend_developer
  | DataAnalyst => data_analyst
  | ProjectManager => project_manager
  | QaDevops => qa_devops
  | BriefingGenerator => briefing_generator
  end.

(** One process: the script runs from a fresh trace. *)
Definition run (s : Script) (w : World) : (error + unit) * World :=
  main s (fresh w).

(** An uncaught exception ends the interpreter with status 1. *)
Definition exit_status (r : error + unit) : nat :=
  match r with
  | inr _ => 0
  | inl _ => 1
  end.

End Scripts.

(** ** Traces and their projections *)

Definition add_events (evs : list Event) (w : World) : World :=
  {| environ := environ w; dotenv := dotenv w; files := files w;
     can_create := can_create w; free_space := free_space w;
     trace := trace w ++ evs |}.

(** Events of the part of a script that gets the response: reading the
    screenshots and calling the service. *)
Definition input_event (ev : Event) : bool :=
  match ev with
  | EvCreate _ _ | EvOpenRead _ | EvClose _ => true
  | _ => false
  end.

Definition is_write (ev : Event) : bool :=
  match ev with
  | EvWrite _ _ => true
  | _ => false
  end.

Definition is_open_write (ev : Event) : bool :=
  match ev with
  | EvOpenWrite _ => true
  | _ => false
  end.

(** ** Writing an artifact *)

(** The [f.write] calls of a [with] block, one after the other. *)
Fixpoint write_all (f : string) (chunks : list string) : M unit :=
  match chunks with
  | [] => mret tt
  | [c] => f_write f c
  | c :: cs => f_write f c ;; write_all f cs
  end.

(** What the block leaves behind when the file [f] is open. *)
Inductive Written (f : string) (chunks : list string) (w : World)
  : error + unit -> World -> Prop :=
  | written_all (fl : File) (space : nat) :
      files w !! f = Some fl ->
      Written f chunks w (inr tt)
        (add_events (map (EvWrite f) chunks)
           (set_disk
              (<[f := set_data (foldl append (data fl) chunks) fl]> (files w))
              space w))
  | written_part (fl' : File) (ws : list Event) :
      forallb is_write ws = true ->
      Written f chunks w (inl IOError)
        (add_events ws (set_disk (<[f := fl']> (files w)) 0 w)).

(** ** What each script persists *)

(** The file a script writes: its path, the strings written before the
    body, and the line printed once the file is closed. *)
Record Artifact : Type := {
  art_path : string;
  art_heading : list string;
  art_saved : string
}.

Definition artifact_of_guide (g : Guide) : Artifact :=
  {| art_path := guide_path g;
     art_heading :=
       [guide_title g +:+ nl +:+ nl; guide_subtitle g +:+ nl +:+ nl];
     art_saved := guide_saved g |}.

Definition architecture_artifact : Artifact :=
  {| art_path := architecture_path;
     art_heading := [architecture_title +:+ nl +:+ nl];
     art_saved := architecture_saved |}.

Definition briefing_artifact : Artifact :=
  {| art_path := briefing_path;
     art_heading := [];
     art_saved := briefing_saved |}.

Definition artifact_of (s : Script) : option Artifact :=
  match s with
  | TestClaude => None
  | SystemArchitect => Some architecture_artifact
  | DataEngineer => Some (artifact_of_guide data_engineer_guide)
  | BackendDeveloper => Some (artifact_of_guide backend_developer_guide)
  | DataAnalyst => Some (artifact_of_guide data_analyst_guide)
  | ProjectManager => Some (artifact_of_guide project_manager_guide)
  | QaDevops => Some (artifact_of_guide qa_devops_guide)
  | BriefingGenerator => Some briefing_artifact
  end.

Definition header (a : Artifact) : string := foldl append "" (art_heading a).

(** The file is opened, heading and body are written, the file is closed
    and the confirmation is printed. *)
Definition save (a : Artifact) (body : string) : M unit :=
  with_open_write (art_path a) (fun f =>
    write_all f (art_heading a ++ [body])) ;;
  print (art_saved a).

(** The three ways [save] can end. *)
Inductive Saved (a : Artifact) (body : string) (w : World)
  : error + unit -> World -> Prop :=
  | saved_not_opened :
      Saved a body w (inl IOError) w
  | saved_part (fl : File) (ws : list Event) :
      forallb is_write ws = true ->
      Saved a body w (inl IOError)
        (add_events (EvOpenWrite (art_path a) :: ws ++ [EvClose (art_path a)])
           (set_disk (<[art_path a := fl]> (files w)) 0 w))
  | saved_ok (fl : File) (space : nat) :
      data fl = header a +:+ body ->
      Saved a body w (inr tt)
        (add_events
           (EvOpenWrite (art_path a)
              :: map (EvWrite (art_path a)) (art_heading a ++ [body])
              ++ [EvClose (art_path a); EvPrint (art_saved a)])
           (set_disk (<[art_path a := fl]> (files w)) space w)).

(** ** The shape every script shares *)

Definition can_read (w : World) (path : string) : bool :=
  match files w !! path with
  | Some f => readable f
  | None => false
  end.

(** Only the briefing reads files before it calls the service. *)
Definition screenshots_readable (s : Script) (w : World) : bool :=
  match s with
  | BriefingGenerator => can_read w oura_morning && can_read w training_log
  | _ => true
  end.

(** The world once [load_dotenv()] has run. *)
Definition loaded (w : World) : World := snd (load_dotenv w).

(** The key [os.environ.get] finds in it. *)
Definition key_of (w : World) : option string :=
  environ (loaded w) !! api_key_name.

Section Behaviour.

Variable remote : string -> Request -> error + Response.
Variable texts : Script -> Prompts.

(** Getting the response: the call itself and, for the briefing, the
    two screenshots read first. *)
Definition obtain (s : Script) (client : Client) : M Response :=
  match s with
  | TestClaude => messages_create remote client test_request
  | BriefingGenerator =>
      oura_image ← encode_image oura_morning;
      training_image ← encode_image training_log;
      messages_create remote client
        (briefing_request texts oura_image training_image)
  | _ => messages_create remote client (role_request (texts s))
  end.

(** Using the response: print the text of block 0, then save it. *)
Definition deliver (s : Script) (message : Response) : M unit :=
  match content message with
  | [] => raise IndexError
  | Image _ :: _ => raise AttributeError
  | Text t :: _ =>
      print t ;;
      match artifact_of s with
      | Some a => save a t
      | None => mret tt
      end
  end.

(** What [client.messages.create] returns or raises. *)
Definition call_result (client : Client) (req : Request)
  : error + Response :=
  match api_key client with
  | None => inl AuthenticationError
  | Some k => remote k req
  end.

(** The two ways of getting the response can end: the call was made
    (and returned or raised), or a screenshot could not be read. *)
Inductive Obtained (s : Script) (client : Client) (w : World)
  : error + Response -> World -> Prop :=
  | obtained_call (evs : list Event) (req : Request) :
      forallb input_event evs = true ->
      creates_of evs = [] ->
      screenshots_readable s w = true ->
      Obtained s client w (call_result client req)
        (add_events (evs ++ [EvCreate req (call_result client req)]) w)
  | obtained_unread (evs : list Event) :
      forallb input_event evs = true ->
      creates_of evs = [] ->
      screenshots_readable s w = false ->
      Obtained s client w (inl IOError) (add_events evs w).

(** The client every script builds from the world it starts in. *)
Definition client_of (w : World) : Client := {| api_key := key_of w |}.

(** Every way a run can end, with the world it leaves. *)
Inductive Outcome (s : Script) (w : World)
  : error + unit -> World -> Prop :=
  | out_unread (evs : list Event) :
      forallb input_event evs = true ->
      creates_of evs = [] ->
      screenshots_readable s w = false ->
      Outcome s w (inl IOError) (add_events evs (loaded (fresh w)))
  | out_refused (evs : list Event) (req : Request) (e : error) :
      forallb input_event evs = true ->
      creates_of evs = [] ->
      screenshots_readable s w = true ->
      call_result (client_of w) req = inl e ->
      Outcome s w (inl e)
        (add_events (evs ++ [EvCreate req (inl e)]) (loaded (fresh w)))
  | out_no_text (evs : list Event) (req : Request) (m : Response)
      (e : error) :
      forallb input_event evs = true ->
      creates_of evs = [] ->
      call_result (client_of w) req = inr m ->
      (content m = [] /\ e = IndexError)
      \/ ((exists src rest, content m = Image src :: rest)
          /\ e = AttributeError) ->
      Outcome s w (inl e)
        (add_events (evs ++ [EvCreate req (inr m)]) (loaded (fresh w)))
  | out_printed (evs : list Event) (req : Request) (body : string)
      (rest : list ContentBlock) :
      forallb input_event evs = true ->
      creates_of evs = [] ->
      call_result (client_of w) req
      = inr {| content := Text body :: rest |} ->
      artifact_of s = None ->
      Outcome s w (inr tt)
        (add_events
           (evs ++ [EvCreate req (inr {| content := Text body :: rest |});
                    EvPrint body])
           (loaded (fresh w)))
  | out_saved (evs : list Event) (req : Request) (body : string)
      (rest : list ContentBlock) (a : Artifact) (r : error + unit)
      (w' : World) :
      forallb input_event evs = true ->
      creates_of evs = [] ->
      call_result (client_of w) req
      = inr {| content := Text body :: rest |} ->
      artifact_of s = Some a ->
      Saved a body
        (add_events
           (evs ++ [EvCreate req (inr {| content := Text body :: rest |});
                    EvPrint body])
           (loaded (fresh w)))
        r w' ->
      Outcome s w r w'.

End Behaviour.

(** ** What can be observed of each outcome *)

(** The confirmation as it appears on standard output. *)
Definition saved_output (s : Script) : string :=
  match artifact_of s with
  | Some a => art_saved a +:+ nl
  | None => ""
  end.

(** ** Shapes of the heading *)

Fixpoint has_newline (t : string) : bool :=
  match t with
  | EmptyString => false
  | String c t' => Ascii.eqb c "010"%char || has_newline t'
  end.

(** A non-empty text without a line break. *)
Definition is_line (t : string) : bool :=
  negb (String.eqb t "") && negb (has_newline t).

Definition two_line_header (h : string) : Prop :=
  exists title subtitle,
    is_line title = true /\ is_line subtitle = true
    /\ h = title +:+ nl +:+ nl +:+ subtitle +:+ nl +:+ nl.

Definition title_only_header (h : string) : Prop :=
  exists title, is_line title = true /\ h = title +:+ nl +:+ nl.

(** The heading each script writes before the body. *)
Definition header_shape (s : Script) (h : string) : Prop :=
  match s with
  | TestClaude => True
  | SystemArchitect => title_only_header h
  | BriefingGenerator => h = ""
  | _ => two_line_header h
  end.

(** [sub] occurs in [t]. *)
Definition contains (sub t : string) : Prop :=
  exists pre post, t = pre +:+ sub +:+ post.

(** ** Sample worlds and services *)

Module Sample.

Definition texts : Script -> Prompts :=
  fun _ => {| system_prompt := "You are an expert.";
              user_question := "Design the system." |}.

(** A service that answers with two text blocks. *)
Definition hello : string -> Request -> error + Response :=
  fun _ _ => inr {| content := [Text "Hello"; Text "and more"] |}.

Definition goodbye : string -> Request -> error + Response :=
  fun _ _ => inr {| content := [Text "Goodbye"] |}.

(** A service that is down. *)
Definition down : string -> Request -> error + Response :=
  fun _ _ => inl ServiceError.

Definition png_file (bytes : string) : File :=
  {| data := bytes; readable := true; writable := true |}.

(** A key in the environment, an empty directory. *)
Definition with_key : World :=
  {| environ := {[ api_key_name := "sk-test" ]}; dotenv := None;
     files := ∅; can_create := true; free_space := 4096; trace := [] |}.

(** As [with_key], with the two screenshots in place. *)
Definition with_screenshots : World :=
  {| environ := {[ api_key_name := "sk-test" ]}; dotenv := None;
     files := {[ oura_morning := png_file "M";
                 training_log := png_file "Man" ]};
     can_create := true; free_space := 4096; trace := [] |}.

(** No key anywhere, no files. *)
Definition without_key : World :=
  {| environ := ∅; dotenv := Some ∅;
     files := ∅; can_create := true; free_space := 4096; trace := [] |}.

(** A key, but a directory in which nothing can be created. *)
Definition read_only : World :=
  {| environ := {[ api_key_name := "sk-test" ]}; dotenv := None;
     files := ∅; can_create := false; free_space := 4096; trace := [] |}.

(** A key, and an earlier guide already on disk. *)
Definition with_old_guide : World :=
  {| environ := {[ api_key_name := "sk-test" ]}; dotenv := None;
     files := {[ guide_path data_engineer_guide := png_file "old" ]};
     can_create := true; free_space := 4096; trace := [] |}.

End Sample.

(** The claim of C2 for one run: some file is opened for writing and a
    printed line names it. *)
Definition writes_and_confirms (w' : World) : Prop :=
  exists path, In (EvOpenWrite path) (trace w')
               /\ exists line, In (EvPrint line) (trace w')
                               /\ contains path line.

(** ** Further observations of a run *)

(** What [message.content[0].text] raises on a response, if anything. *)
Definition content0_error (m : Response) : option error :=
  match content m with
  | [] => Some IndexError
  | Image _ :: _ => Some AttributeError
  | Text _ :: _ => None
  end.



(** The discipline of file handles along a trace, from the handles
    [opened] so far (innermost first): a write needs an open handle, a
    close releases the innermost handle and must name it. [None] when the
    discipline is broken, otherwise the handles still open. *)
Fixpoint file_protocol (opened : list string) (evs : list Event)
  : option (list string) :=
  match evs with
  | [] => Some opened
  | EvOpenRead path :: evs' => file_protocol (path :: opened) evs'
  | EvOpenWrite path :: evs' => file_protocol (path :: opened) evs'
  | EvWrite _ _ :: evs' =>
      match opened with
      | [] => None
      | _ :: _ => file_protocol opened evs'
      end
  | EvClose path :: evs' =>
      match opened with
      | top :: opened' =>
          if String.eqb path top then file_protocol opened' evs' else None
      | [] => None
      end
  | _ :: evs' => file_protocol opened evs'
  end.

(** A stretch of the trace that leaves the open handles as they were. *)
Definition neutral (evs : list Event) : Prop :=
  forall opened, file_protocol opened evs = Some opened.

(** The requests the service accepts as to their form: the fixed model, a
    token budget between 1 and 4000, and one user turn whose content is a
    string or a non-empty list of blocks. *)
Definition well_formed (req : Request) : bool :=
  String.eqb (model req) the_model
  && (0 <? max_tokens req)%N && (max_tokens req <=? 4000)%N
  && match messages req with
     | [turn] =>
         match role turn, turn_content turn with
         | user, Plain _ => true
         | user, Blocks [] => false
         | user, Blocks (_ :: _) => true
         | assistant, _ => false
         end
     | _ => false
     end.

(** The characters base64 text is made of. *)
Definition is_b64_char (c : ascii) : bool :=
  match Base64.b64val c with
  | Some _ => true
  | None => Ascii.eqb c Base64.pad
  end.

Fixpoint string_forall (p : ascii -> bool) (t : string) : bool :=
  match t with
  | EmptyString => true
  | String c t' => p c && string_forall p t'
  end.

(** Seven-bit characters: text of them is its own UTF-8 encoding. *)
Definition is_ascii (c : ascii) : bool := (N_of_ascii c <? 128)%N.

(** The key as the documentation of the two libraries describes it: the
    variable of the environment if it is set, otherwise the one of the
    [.env] file. *)
Definition resolved_key (w : World) : option string :=
  match environ w !! api_key_name with
  | Some k => Some k
  | None =>
      match dotenv w with
      | Some vars => vars !! api_key_name
      | None => None
      end
  end.

Module MoreSamples.

(** A service whose response has no content block. *)
Definition empty_answer : string -> Request -> error + Response :=
  fun _ _ => inr {| content := [] |}.

(** A world whose [.env] file holds the key the environment lacks. *)
Definition key_in_dotenv : World :=
  {| environ := ∅; dotenv := Some {[ api_key_name := "sk-dotenv" ]};
     files := ∅; can_create := true; free_space := 4096; trace := [] |}.


End MoreSamples.

(** * Proofs *)

(** ** Correctness of the base64 model *)
Module Base64Facts.
Import Base64.

Example encode_Man : standard_b64encode "Man" = "TWFu".
Proof. reflexivity. Qed.

Example encode_Ma : standard_b64encode "Ma" = "TWE=".
Proof. reflexivity. Qed.

Example encode_M : standard_b64encode "M" = "TQ==".
Proof. reflexivity. Qed.

Example decode_TWE : standard_b64decode "TWE=" = Some "Ma".
Proof. reflexivity. Qed.

Lemma b64val_b64char (n : N) :
  (n < 64)%N -> b64val (b64char n) = Some n.
Proof.
  intros Hn.
  destruct n as [|p]; [reflexivity|].
  do 6 (destruct p as [p|p|]; try reflexivity; try lia).
Qed.

Lemma b64char_not_pad (n : N) :
  (n < 64)%N -> Ascii.eqb (b64char n) pad = false.
Proof.
  intros Hn.
  destruct n as [|p]; [reflexivity|].
  do 6 (destruct p as [p|p|]; try reflexivity; try lia).
Qed.

Lemma byte_val_bounded (a : ascii) : (byte_val a < 256)%N.
Proof. apply N_ascii_bounded. Qed.

Lemma byte_of_val (a : ascii) : byte_of (byte_val a) = a.
Proof. apply ascii_N_embedding. Qed.

(** Regrouping three octets into four sextets and back is the identity. *)
Local Ltac euclid := zify; Z.to_euclidean_division_equations; lia.

Local Open Scope N_scope.

Lemma sextet1_lt x : x < 256 -> x / 4 < 64.
Proof. intros; euclid. Qed.

Lemma sextet2_lt x y : x < 256 -> y < 256 -> (x mod 4) * 16 + y / 16 < 64.
Proof. intros; euclid. Qed.

Lemma sextet2_short_lt x : x < 256 -> (x mod 4) * 16 < 64.
Proof. intros; euclid. Qed.

Lemma sextet3_lt y z : y < 256 -> z < 256 -> (y mod 16) * 4 + z / 64 < 64.
Proof. intros; euclid. Qed.

Lemma sextet3_short_lt y : y < 256 -> (y mod 16) * 4 < 64.
Proof. intros; euclid. Qed.

Lemma sextet4_lt z : z < 256 -> z mod 64 < 64.
Proof. intros; euclid. Qed.

Lemma octet1_back x y :
  x < 256 -> y < 256 -> x / 4 * 4 + ((x mod 4) * 16 + y / 16) / 16 = x.
Proof. intros; euclid. Qed.

Lemma octet1_short_back x : x < 256 -> x / 4 * 4 + ((x mod 4) * 16) / 16 = x.
Proof. intros; euclid. Qed.

Lemma octet2_back x y z :
  x < 256 -> y < 256 -> z < 256 ->
  (((x mod 4) * 16 + y / 16) mod 16) * 16 + ((y mod 16) * 4 + z / 64) / 4 = y.
Proof. intros; euclid. Qed.

Lemma octet2_short_back x y :
  x < 256 -> y < 256 ->
  (((x mod 4) * 16 + y / 16) mod 16) * 16 + ((y mod 16) * 4) / 4 = y.
Proof. intros; euclid. Qed.

Lemma octet3_back y z :
  y < 256 -> z < 256 ->
  (((y mod 16) * 4 + z / 64) mod 4) * 64 + z mod 64 = z.
Proof. intros; euclid. Qed.

Local Close Scope N_scope.

Lemma decode_encode_one (a : ascii) :
  standard_b64decode (standard_b64encode (String a EmptyString))
  = Some (String a EmptyString).
Proof.
  pose proof (byte_val_bounded a) as Ha.
  cbn [standard_b64encode standard_b64decode].
  rewrite !b64val_b64char
    by first [ now apply sextet1_lt | now apply sextet2_short_lt ].
  rewrite Ascii.eqb_refl.
  rewrite (octet1_short_back _ Ha).
  now rewrite byte_of_val.
Qed.

Lemma decode_encode_two (a b : ascii) :
  standard_b64decode (standard_b64encode (String a (String b EmptyString)))
  = Some (String a (String b EmptyString)).
Proof.
  pose proof (byte_val_bounded a) as Ha.
  pose proof (byte_val_bounded b) as Hb.
  cbn [standard_b64encode standard_b64decode].
  rewrite !b64val_b64char
    by first [ now apply sextet1_lt | now apply sextet2_lt
             | now apply sextet3_short_lt ].
  rewrite Ascii.eqb_refl.
  rewrite (b64char_not_pad _ (sextet3_short_lt _ Hb)).
  rewrite (octet1_back _ _ Ha Hb).
  rewrite (octet2_short_back _ _ Ha Hb).
  now rewrite !byte_of_val.
Qed.

Lemma decode_encode_three (a b c : ascii) (rest : string) :
  standard_b64decode (standard_b64encode rest) = Some rest ->
  standard_b64decode
    (standard_b64encode (String a (String b (String c rest))))
  = Some (String a (String b (String c rest))).
Proof.
  intros IH.
  pose proof (byte_val_bounded a) as Ha.
  pose proof (byte_val_bounded b) as Hb.
  pose proof (byte_val_bounded c) as Hc.
  cbn [standard_b64encode standard_b64decode].
  rewrite !b64val_b64char
    by first [ now apply sextet1_lt | now apply sextet2_lt
             | now apply sextet3_lt | now apply sextet4_lt ].
  rewrite (b64char_not_pad _ (sextet4_lt _ Hc)).
  rewrite IH.
  rewrite (octet1_back _ _ Ha Hb).
  rewrite (octet2_back _ _ _ Ha Hb Hc).
  rewrite (octet3_back _ _ Hb Hc).
  now rewrite !byte_of_val.
Qed.

(** Decoding inverts encoding, for every byte string. *)
Lemma standard_b64decode_encode (bs : string) :
  standard_b64decode (standard_b64encode bs) = Some bs.
Proof.
  enough (H : standard_b64decode (standard_b64encode bs) = Some bs
              /\ (forall a, standard_b64decode
                     (standard_b64encode (String a bs)) = Some (String a bs))
              /\ (forall a b, standard_b64decode
                     (standard_b64encode (String a (String b bs)))
                   = Some (String a (String b bs)))) by apply H.
  induction bs as [|c rest (IH0 & IH1 & IH2)].
  - split; [reflexivity|].
    split; [apply decode_encode_one | apply decode_encode_two].
  - split; [apply IH1|].
    split; [intros a; apply IH2|].
    intros a b. now apply decode_encode_three.
Qed.

End Base64Facts.

(** ** Strings and traces *)

Lemma string_app_nil_r (s : string) : s +:+ "" = s.
Proof.
  induction s as [|c s IH]; [reflexivity|].
  cbv [append]; fold append. now rewrite IH.
Qed.

Lemma string_app_assoc (s t u : string) : (s +:+ t) +:+ u = s +:+ t +:+ u.
Proof.
  induction s as [|c s IH]; [reflexivity|].
  cbv [append]; fold append. now rewrite IH.
Qed.

Lemma string_app_length (s t : string) :
  String.length (s +:+ t) = String.length s + String.length t.
Proof.
  induction s as [|c s IH]; [reflexivity|].
  cbv [append]; fold append. simpl. now rewrite IH.
Qed.

Lemma stdout_of_app (l1 l2 : list Event) :
  stdout_of (l1 ++ l2) = stdout_of l1 +:+ stdout_of l2.
Proof.
  induction l1 as [|ev l1 IH]; [reflexivity|].
  destruct ev; simpl; rewrite ?IH; try reflexivity.
  now rewrite !string_app_assoc.
Qed.

Lemma creates_of_app (l1 l2 : list Event) :
  creates_of (l1 ++ l2) = creates_of l1 ++ creates_of l2.
Proof.
  induction l1 as [|ev l1 IH]; [reflexivity|].
  destruct ev; simpl; now rewrite ?IH.
Qed.

Lemma stdout_of_input (evs : list Event) :
  forallb input_event evs = true -> stdout_of evs = "".
Proof.
  induction evs as [|ev evs IH]; [reflexivity|].
  destruct ev; simpl; try discriminate; exact IH.
Qed.

Lemma stdout_of_writes (evs : list Event) :
  forallb is_write evs = true -> stdout_of evs = "".
Proof.
  induction evs as [|ev evs IH]; [reflexivity|].
  destruct ev; simpl; try discriminate; exact IH.
Qed.

Lemma creates_of_writes (evs : list Event) :
  forallb is_write evs = true -> creates_of evs = [].
Proof.
  induction evs as [|ev evs IH]; [reflexivity|].
  destruct ev; simpl; try discriminate; exact IH.
Qed.

Lemma forallb_is_write_map (f : string) (chunks : list string) :
  forallb is_write (map (EvWrite f) chunks) = true.
Proof. induction chunks; [reflexivity | assumption]. Qed.

Lemma input_not_open_write (evs : list Event) (p : string) :
  forallb input_event evs = true -> ~ In (EvOpenWrite p) evs.
Proof.
  rewrite forallb_forall. intros H Hin. apply H in Hin. discriminate.
Qed.

Lemma writes_not_open_write (evs : list Event) (p : string) :
  forallb is_write evs = true -> ~ In (EvOpenWrite p) evs.
Proof.
  rewrite forallb_forall. intros H Hin. apply H in Hin. discriminate.
Qed.

Lemma add_events_add_events (e1 e2 : list Event) (w : World) :
  add_events e2 (add_events e1 w) = add_events (e1 ++ e2) w.
Proof. unfold add_events; simpl. now rewrite <- app_assoc. Qed.

Lemma log_add_events (ev : Event) (evs : list Event) (w : World) :
  log ev (add_events evs w) = add_events (evs ++ [ev]) w.
Proof. apply (add_events_add_events evs [ev] w). Qed.

(** ** The writes of a [with] block *)

Lemma set_disk_id (w : World) : set_disk (files w) (free_space w) w = w.
Proof. now destruct w. Qed.

Lemma add_events_nil (w : World) : add_events [] w = w.
Proof. destruct w; unfold add_events; simpl. now rewrite app_nil_r. Qed.

Lemma write_all_written (f : string) (chunks : list string) :
  forall (w : World) (fl : File),
    files w !! f = Some fl ->
    Written f chunks w
      (fst (write_all f chunks w)) (snd (write_all f chunks w)).
Proof.
  assert (Hone : forall c w fl, files w !! f = Some fl ->
            Written f [c] w (fst (f_write f c w)) (snd (f_write f c w))).
  { intros c w fl Hfl. unfold f_write. rewrite Hfl.
    destruct (decide _); simpl.
    - apply (written_all f [c] w fl _ Hfl).
    - apply (written_part f [c] w _ [EvWrite f _]). reflexivity. }
  induction chunks as [|c cs IH]; intros w fl Hfl.
  - simpl. pose proof (written_all f [] w fl (free_space w) Hfl) as H.
    simpl in H. rewrite insert_id in H by (now destruct fl).
    now rewrite set_disk_id, add_events_nil in H.
  - destruct cs as [|c' cs]; [now apply (Hone c w fl)|].
    change (write_all f (c :: c' :: cs) w)
      with ((f_write f c ;; write_all f (c' :: cs)) w).
    unfold mbind, M_bind.
    pose proof (Hone c w fl Hfl) as H1.
    destruct (f_write f c w) as [[e|[]] w1] eqn:E1; cbn [fst snd] in H1 |- *.
    + inversion H1; subst. now apply written_part.
    + inversion H1 as [fl1 space Hfl1 Heq|]; subst.
      rewrite Hfl in Hfl1; injection Hfl1 as <-.
      set (w1 := add_events _ _) in *.
      assert (Hw1 : files w1 !! f = Some (set_data (data fl +:+ c) fl))
        by (unfold w1; cbn [files add_events set_disk]; apply lookup_insert_eq).
      specialize (IH w1 _ Hw1).
      destruct (write_all f (c' :: cs) w1) as [r w2]; cbn [fst snd] in IH |- *.
      inversion IH as [fl2 space2 Hfl2|fl2 ws Hws]; subst.
      * rewrite Hw1 in Hfl2; injection Hfl2 as <-.
        unfold w1, add_events, set_disk;
          cbn [files environ dotenv can_create free_space trace].
        rewrite insert_insert_eq, <- app_assoc.
        exact (written_all f (c :: c' :: cs) w fl space2 Hfl).
      * unfold w1, add_events, set_disk;
          cbn [files environ dotenv can_create free_space trace].
        rewrite insert_insert_eq, <- app_assoc.
        exact (written_part f (c :: c' :: cs) w fl2 (EvWrite f c :: ws) Hws).
Qed.

Lemma foldl_append_last (d : string) (l : list string) (x : string) :
  foldl append d (l ++ [x]) = foldl append d l +:+ x.
Proof. now rewrite foldl_app. Qed.

Ltac world_fields :=
  unfold log, add_events, set_disk;
  cbn [files environ dotenv can_create free_space trace].

Lemma save_saved (a : Artifact) (body : string) (w : World) :
  Saved a body w (fst (save a body w)) (snd (save a body w)).
Proof.
  unfold save, mbind, M_bind, with_open_write.
  assert (Hopened : forall f0 space,
    let w1 := log (EvOpenWrite (art_path a))
                (set_disk (<[art_path a := set_data "" f0]> (files w))
                   space w) in
    let r := match write_all (art_path a) (art_heading a ++ [body]) w1 with
             | (r, w2) => (r, log (EvClose (art_path a)) w2)
             end in
    Saved a body w
      (fst match r with
           | (inl e, w') => (inl e, w')
           | (inr x, w') => print (art_saved a) w'
           end)
      (snd match r with
           | (inl e, w') => (inl e, w')
           | (inr x, w') => print (art_saved a) w'
           end)).
  { intros f0 space w1 r. subst r.
    assert (Hw1 : files w1 !! art_path a = Some (set_data "" f0))
      by (unfold w1; world_fields; apply lookup_insert_eq).
    pose proof (write_all_written (art_path a) (art_heading a ++ [body])
                  w1 _ Hw1) as HW.
    destruct (write_all _ _ w1) as [r w2]; cbn [fst snd] in HW.
    inversion HW as [fl sp Hfl|fl ws Hws]; subst.
    - rewrite Hw1 in Hfl; injection Hfl as <-.
      unfold print; cbn [fst snd]. unfold w1; world_fields.
      rewrite insert_insert_eq, <- !app_assoc.
      apply (saved_ok a body w _ sp).
      cbn [data set_data]. apply foldl_append_last.
    - cbn [fst snd]. unfold w1; world_fields.
      rewrite insert_insert_eq, <- !app_assoc.
      apply (saved_part a body w fl ws Hws). }
  unfold open_write.
  destruct (files w !! art_path a) as [f0|].
  - destruct (writable f0); [apply Hopened | apply saved_not_opened].
  - destruct (can_create w).
    + apply (Hopened new_file).
    + apply saved_not_opened.
Qed.

Lemma read_binary_cases (path : string) (w : World) :
  (exists f, files w !! path = Some f /\ readable f = true
             /\ read_binary path w
                = (inr (data f), add_events [EvOpenRead path; EvClose path] w))
  \/ (can_read w path = false /\ read_binary path w = (inl IOError, w)).
Proof.
  unfold read_binary, can_read.
  destruct (files w !! path) as [f|]; [|now right].
  destruct (readable f) eqn:R; [|now right].
  left. exists f. repeat split; try assumption.
  world_fields. now rewrite <- app_assoc.
Qed.

Lemma can_read_add_events (evs : list Event) (w : World) (path : string) :
  can_read (add_events evs w) path = can_read w path.
Proof. reflexivity. Qed.

(** ** Every run ends in one of five ways *)

Section BehaviourFacts.

Variable remote : string -> Request -> error + Response.
Variable texts : Script -> Prompts.

Lemma make_client_loaded (w : World) :
  make_client w = (inr {| api_key := key_of w |}, loaded w).
Proof.
  unfold make_client, key_of, loaded, load_dotenv, mbind, M_bind.
  now destruct (dotenv w).
Qed.

Lemma main_normal (s : Script) (w : World) :
  main remote texts s w
  = (client ← make_client;
     message ← obtain remote texts s client;
     deliver s message) w.
Proof.
  unfold mbind at 1 2. unfold M_bind at 1 2.
  destruct s; cbn [main obtain];
    unfold test_claude, system_architect, data_engineer, backend_developer,
      data_analyst, project_manager, qa_devops, role_script,
      briefing_generator, generate_briefing;
    unfold mbind at 1; unfold M_bind at 1;
    rewrite make_client_loaded;
    unfold deliver, mbind, M_bind, messages_create, content0_text, raise,
      mret, M_ret;
    cbn [artifact_of].
  all: cbn [api_key].
  all: try (destruct (key_of w) as [k|];
            [destruct (remote k _) as [e|[[|[t|src] rest]]]|]; reflexivity).
  destruct (encode_image oura_morning (loaded w)) as [[e|o] w1];
    [reflexivity|].
  destruct (encode_image training_log w1) as [[e|t] w2]; [reflexivity|].
  destruct (key_of w) as [k|];
    [destruct (remote k _) as [e|[[|[b|src] rest]]]|]; reflexivity.
Qed.

Lemma obtain_obtained (s : Script) (client : Client) (w : World) :
  Obtained remote s client w
    (fst (obtain remote texts s client w))
    (snd (obtain remote texts s client w)).
Proof.
  destruct s; cbn [obtain];
    try (unfold messages_create; cbn [fst snd];
         match goal with
         | |- Obtained _ ?s _ _ _ (log (EvCreate ?req _) _) =>
             exact (obtained_call remote s client w [] req
                      eq_refl eq_refl eq_refl)
         end).
  unfold mbind, M_bind, encode_image.
  unfold mbind, M_bind.
  destruct (read_binary_cases oura_morning w)
    as [(f1 & E1 & R1 & ->)|[U1 ->]].
  2:{ cbn [fst snd]. rewrite <- (add_events_nil w) at 2.
      apply obtained_unread; auto.
      cbn [screenshots_readable]. now rewrite U1. }
  cbv beta iota. unfold mret, M_ret. cbv beta iota.
  set (w1 := add_events _ w).
  destruct (read_binary_cases training_log w1)
    as [(f2 & E2 & R2 & ->)|[U2 ->]].
  2:{ cbn [fst snd]. apply obtained_unread; auto.
      cbn [screenshots_readable]. change (can_read w1) with (can_read w) in U2.
      rewrite U2. apply andb_false_r. }
  cbv beta iota. unfold messages_create; cbn [fst snd].
  assert (Hread : screenshots_readable BriefingGenerator w = true).
  { cbn [screenshots_readable]. unfold can_read.
    change (files w1) with (files w) in E2. now rewrite E1, E2, R1, R2. }
  unfold w1. rewrite add_events_add_events, log_add_events.
  match goal with
  | |- Obtained _ _ _ _ _ (add_events (_ ++ [EvCreate ?req _]) _) =>
      exact (obtained_call remote _ client w
               [EvOpenRead oura_morning; EvClose oura_morning;
                EvOpenRead training_log; EvClose training_log]
               req eq_refl eq_refl Hread)
  end.
Qed.

Lemma key_of_fresh (w : World) : key_of (fresh w) = key_of w.
Proof. now destruct w as [? [?|] ? ? ? ?]. Qed.

Lemma trace_loaded_fresh (w : World) : trace (loaded (fresh w)) = [].
Proof. now destruct w as [? [?|] ? ? ? ?]. Qed.

Lemma files_loaded_fresh (w : World) : files (loaded (fresh w)) = files w.
Proof. now destruct w as [? [?|] ? ? ? ?]. Qed.

Lemma free_space_loaded_fresh (w : World) :
  free_space (loaded (fresh w)) = free_space w.
Proof. now destruct w as [? [?|] ? ? ? ?]. Qed.

Lemma can_read_loaded_fresh (w : World) (path : string) :
  can_read (loaded (fresh w)) path = can_read w path.
Proof. now destruct w as [? [?|] ? ? ? ?]. Qed.

Lemma screenshots_readable_loaded_fresh (s : Script) (w : World) :
  screenshots_readable s (loaded (fresh w)) = screenshots_readable s w.
Proof. destruct s; try reflexivity. now destruct w as [? [?|] ? ? ? ?]. Qed.

Lemma run_unfold (s : Script) (w : World) :
  run remote texts s w
  = match obtain remote texts s (client_of w) (loaded (fresh w)) with
    | (inl e, w1) => (inl e, w1)
    | (inr m, w1) => deliver s m w1
    end.
Proof.
  unfold run. rewrite main_normal.
  unfold mbind at 1; unfold M_bind at 1.
  rewrite make_client_loaded, key_of_fresh. reflexivity.
Qed.

Lemma run_outcome (s : Script) (w : World) :
  Outcome remote s w (fst (run remote texts s w)) (snd (run remote texts s w)).
Proof.
  rewrite run_unfold.
  pose proof (obtain_obtained s (client_of w) (loaded (fresh w))) as HO.
  destruct (obtain remote texts s (client_of w) (loaded (fresh w)))
    as [[e|m] w1];
    cbn [fst snd] in HO.
  - inversion HO as [evs req Hin Hcr Hrd Hres Hw|evs Hin Hcr Hun]; subst;
      rewrite screenshots_readable_loaded_fresh in *.
    + cbn [fst snd]. rewrite Hres. apply out_refused; auto.
    + cbn [fst snd]. apply out_unread; auto.
  - inversion HO as [evs req Hin Hcr Hrd Hres Hw|]; subst.
    unfold deliver.
    destruct m as [[|[t|src] rest]]; cbn [content].
    + unfold raise; cbn [fst snd]. rewrite Hres.
      apply out_no_text; auto.
    + unfold mbind, M_bind, print. rewrite log_add_events, <- app_assoc.
      cbn [app].
      destruct (artifact_of s) as [a|] eqn:Ea.
      * rewrite Hres.
        eapply out_saved; eauto. apply save_saved.
      * unfold mret, M_ret; cbn [fst snd]. rewrite Hres.
        now apply out_printed.
    + unfold raise; cbn [fst snd]. rewrite Hres.
      apply out_no_text; auto. right. split; eauto.
Qed.

End BehaviourFacts.

(** ** What a successful run leaves behind *)

Section Observations.

Variable remote : string -> Request -> error + Response.
Variable texts : Script -> Prompts.

Lemma call_result_inr (w : World) (req : Request) (m : Response) :
  call_result remote (client_of w) req = inr m ->
  exists k, key_of w = Some k /\ remote k req = inr m.
Proof.
  unfold call_result, client_of; cbn [api_key].
  destruct (key_of w) as [k|]; [eauto | discriminate].
Qed.

Lemma call_result_no_key (w : World) (req : Request) :
  key_of w = None ->
  call_result remote (client_of w) req = inl AuthenticationError.
Proof. unfold call_result, client_of; cbn [api_key]. now intros ->. Qed.

Lemma trace_base (evs : list Event) (w : World) :
  trace (add_events evs (loaded (fresh w))) = evs.
Proof. cbn [trace add_events]. now rewrite trace_loaded_fresh. Qed.

Lemma files_base (evs : list Event) (w : World) :
  files (add_events evs (loaded (fresh w))) = files w.
Proof. cbn [files add_events]. apply files_loaded_fresh. Qed.

Lemma stdout_call_print (evs : list Event) (req : Request)
    (res : error + Response) (body : string) :
  forallb input_event evs = true ->
  stdout_of (evs ++ [EvCreate req res; EvPrint body]) = body +:+ nl.
Proof.
  intros Hin. rewrite stdout_of_app, (stdout_of_input _ Hin).
  cbn [stdout_of]. now rewrite string_app_nil_r.
Qed.

Lemma creates_call_print (evs : list Event) (req : Request)
    (res : error + Response) (body : string) :
  creates_of evs = [] ->
  creates_of (evs ++ [EvCreate req res; EvPrint body]) = [(req, res)].
Proof. intros Hcr. now rewrite creates_of_app, Hcr. Qed.

(** A successful run: one call, the text of block 0 printed, then the
    artifact written and the confirmation printed. *)
Lemma success_inv (s : Script) (w w' : World) :
  Outcome remote s w (inr tt) w' ->
  exists k req body rest,
    key_of w = Some k
    /\ remote k req = inr {| content := Text body :: rest |}
    /\ creates_of (trace w')
       = [(req, inr {| content := Text body :: rest |})]
    /\ stdout w' = body +:+ nl +:+ saved_output s
    /\ match artifact_of s with
       | Some a =>
           exists fl, files w' = <[art_path a := fl]> (files w)
                      /\ data fl = header a +:+ body
       | None => files w' = files w
       end.
Proof.
  intros H.
  inversion H as [| | |evs req body rest Hin Hcr Hres Hart
                 |evs req body rest a r w2 Hin Hcr Hres Hart Hsaved];
    subst.
  - destruct (call_result_inr _ _ _ Hres) as (k & Hk & Hr).
    exists k, req, body, rest. unfold stdout, saved_output.
    rewrite Hart, trace_base, files_base.
    rewrite stdout_call_print, creates_call_print by assumption.
    now rewrite string_app_nil_r.
  - destruct (call_result_inr _ _ _ Hres) as (k & Hk & Hr).
    exists k, req, body, rest. unfold stdout, saved_output.
    rewrite Hart.
    inversion Hsaved as [| |fl space Hdata]; subst.
    cbn [trace files add_events set_disk].
    rewrite trace_loaded_fresh, files_loaded_fresh. cbn [app].
    repeat split; try assumption.
    + rewrite creates_of_app, creates_call_print by assumption.
      cbn [creates_of]. rewrite creates_of_app.
      now rewrite creates_of_writes by apply forallb_is_write_map.
    + rewrite stdout_of_app, stdout_call_print by assumption.
      cbn [stdout_of]. rewrite stdout_of_app.
      rewrite stdout_of_writes by apply forallb_is_write_map.
      cbn [stdout_of]. now rewrite string_app_nil_r, string_app_assoc.
    + now exists fl.
Qed.

End Observations.

(** ** Properties of the scripts *)

Lemma header_shape_of (s : Script) (a : Artifact) :
  artifact_of s = Some a -> header_shape s (header a).
Proof.
  destruct s; cbn [artifact_of]; intros [= <-]; cbn [header_shape];
    try discriminate; try reflexivity.
  - exists architecture_title. now split.
  - exists (guide_title data_engineer_guide),
      (guide_subtitle data_engineer_guide). now repeat split.
  - exists (guide_title backend_developer_guide),
      (guide_subtitle backend_developer_guide). now repeat split.
  - exists (guide_title data_analyst_guide),
      (guide_subtitle data_analyst_guide). now repeat split.
  - exists (guide_title project_manager_guide),
      (guide_subtitle project_manager_guide). now repeat split.
  - exists (guide_title qa_devops_guide),
      (guide_subtitle qa_devops_guide). now repeat split.
Qed.

Lemma saved_contains_path (s : Script) (a : Artifact) :
  artifact_of s = Some a -> contains (art_path a) (art_saved a).
Proof.
  destruct s; cbn [artifact_of]; intros [= <-]; unfold contains;
    cbn [art_path art_saved artifact_of_guide].
  - exists (saved_mark +:+ "Architecture saved to "), "". reflexivity.
  - exists (saved_mark +:+ "Data integration guide saved to "), "".
    reflexivity.
  - exists (saved_mark +:+ "Implementation code saved to "), "". reflexivity.
  - exists (saved_mark +:+ "Recommendation engine design saved to "), "".
    reflexivity.
  - exists (saved_mark +:+ "Project plan saved to "), "". reflexivity.
  - exists (saved_mark +:+ "QA/DevOps guide saved to "), "". reflexivity.
  - exists (saved_mark +:+ "Briefing saved to "), "". reflexivity.
Qed.

(** C1: in every successful run of any script the body that is printed
    and persisted is exactly the text of block 0 of the service's
    response; the blocks after it ([rest]) appear in neither standard
    output nor the file. *)
Theorem body_is_first_content_block
    (remote : string -> Request -> error + Response)
    (texts : Script -> Prompts) (s : Script) (w : World) :
  fst (run remote texts s w) = inr tt ->
  exists k req body rest,
    key_of w = Some k
    /\ remote k req = inr {| content := Text body :: rest |}
    /\ creates_of (trace (snd (run remote texts s w)))
       = [(req, inr {| content := Text body :: rest |})]
    /\ stdout (snd (run remote texts s w)) = body +:+ nl +:+ saved_output s
    /\ match artifact_of s with
       | Some a =>
           data <$> files (snd (run remote texts s w)) !! art_path a
           = Some (header a +:+ body)
       | None => files (snd (run remote texts s w)) = files w
       end.
Proof.
  intros Hok. pose proof (run_outcome remote texts s w) as H.
  rewrite Hok in H. apply success_inv in H.
  destruct H as (k & req & body & rest & Hk & Hr & Hc & Hout & Hfile).
  exists k, req, body, rest. repeat split; try assumption.
  destruct (artifact_of s) as [a|]; [|assumption].
  destruct Hfile as (fl & -> & Hdata).
  now rewrite lookup_insert_eq; cbn; rewrite Hdata.
Qed.

Lemma body_is_first_content_block_witness :
  fst (run Sample.hello Sample.texts DataEngineer Sample.with_key) = inr tt
  /\ exists k req body rest,
       key_of Sample.with_key = Some k
       /\ Sample.hello k req = inr {| content := Text body :: rest |}
       /\ creates_of
            (trace (snd (run Sample.hello Sample.texts DataEngineer
                           Sample.with_key)))
          = [(req, inr {| content := Text body :: rest |})]
       /\ stdout (snd (run Sample.hello Sample.texts DataEngineer
                         Sample.with_key))
          = body +:+ nl +:+ saved_output DataEngineer
       /\ data <$> files (snd (run Sample.hello Sample.texts DataEngineer
                                 Sample.with_key))
                   !! guide_path data_engineer_guide
          = Some (header (artifact_of_guide data_engineer_guide) +:+ body).
Proof.
  split; [vm_compute; reflexivity|].
  apply (body_is_first_content_block Sample.hello Sample.texts DataEngineer
           Sample.with_key).
  vm_compute; reflexivity.
Defined.

(** C2, as stated, fails for [test_claude.py]: its successful run prints
    the body and nothing else, and opens no file. *)
Lemma test_claude_writes_no_file :
  fst (run Sample.hello Sample.texts TestClaude Sample.with_key) = inr tt
  /\ stdout (snd (run Sample.hello Sample.texts TestClaude Sample.with_key))
     = "Hello" +:+ nl
  /\ ~ writes_and_confirms
         (snd (run Sample.hello Sample.texts TestClaude Sample.with_key)).
Proof.
  split; [vm_compute; reflexivity|].
  split; [vm_compute; reflexivity|].
  intros (path & Hopen & _).
  assert (Htrace :
    trace (snd (run Sample.hello Sample.texts TestClaude Sample.with_key))
    = [EvCreate test_request
         (inr {| content := [Text "Hello"; Text "and more"] |});
       EvPrint "Hello"]) by (vm_compute; reflexivity).
  rewrite Htrace in Hopen.
  destruct Hopen as [H|[H|[]]]; discriminate H.
Qed.

(** C2 (amended): a successful run exits with status 0 and prints the
    body; every script except [test_claude.py] also writes heading and
    body to its output file and then prints a confirmation that contains
    the output path, while [test_claude.py] writes no file and prints no
    confirmation. *)
Theorem successful_run_prints_and_saves
    (remote : string -> Request -> error + Response)
    (texts : Script -> Prompts) (s : Script) (w : World) :
  fst (run remote texts s w) = inr tt ->
  exit_status (fst (run remote texts s w)) = 0
  /\ exists req body rest,
       creates_of (trace (snd (run remote texts s w)))
       = [(req, inr {| content := Text body :: rest |})]
       /\ match artifact_of s with
          | Some a =>
              stdout (snd (run remote texts s w))
              = body +:+ nl +:+ art_saved a +:+ nl
              /\ contains (art_path a) (art_saved a)
              /\ data <$> files (snd (run remote texts s w)) !! art_path a
                 = Some (header a +:+ body)
          | None =>
              s = TestClaude
              /\ stdout (snd (run remote texts s w)) = body +:+ nl
              /\ files (snd (run remote texts s w)) = files w
          end.
Proof.
  intros Hok. split; [now rewrite Hok|].
  pose proof (run_outcome remote texts s w) as H.
  rewrite Hok in H. apply success_inv in H.
  destruct H as (k & req & body & rest & Hk & Hr & Hc & Hout & Hfile).
  exists req, body, rest. split; [assumption|].
  unfold saved_output in Hout.
  destruct (artifact_of s) as [a|] eqn:Ea.
  - destruct Hfile as (fl & Hfiles & Hdata).
    repeat split; [assumption | now apply (saved_contains_path s)|].
    now rewrite Hfiles, lookup_insert_eq; cbn; rewrite Hdata.
  - repeat split; try assumption. now destruct s.
Qed.

Lemma successful_run_prints_and_saves_witness :
  fst (run Sample.hello Sample.texts QaDevops Sample.with_key) = inr tt
  /\ exit_status (fst (run Sample.hello Sample.texts QaDevops Sample.with_key))
     = 0
  /\ exists req body rest,
       creates_of
         (trace (snd (run Sample.hello Sample.texts QaDevops Sample.with_key)))
       = [(req, inr {| content := Text body :: rest |})]
       /\ stdout (snd (run Sample.hello Sample.texts QaDevops Sample.with_key))
          = body +:+ nl +:+ guide_saved qa_devops_guide +:+ nl
       /\ contains (guide_path qa_devops_guide) (guide_saved qa_devops_guide)
       /\ data <$> files (snd (run Sample.hello Sample.texts QaDevops
                                 Sample.with_key))
                   !! guide_path qa_devops_guide
          = Some (header (artifact_of_guide qa_devops_guide) +:+ body).
Proof.
  split; [vm_compute; reflexivity|].
  apply (successful_run_prints_and_saves Sample.hello Sample.texts QaDevops
           Sample.with_key).
  vm_compute; reflexivity.
Defined.

(** C3, as stated, fails for [briefing_generator.py]: the file it writes
    is the body alone, so it is not a two-line header followed by the
    body. *)
Lemma briefing_file_has_no_header :
  fst (run Sample.hello Sample.texts BriefingGenerator Sample.with_screenshots)
  = inr tt
  /\ data <$> files (snd (run Sample.hello Sample.texts BriefingGenerator
                            Sample.with_screenshots)) !! briefing_path
     = Some "Hello"
  /\ ~ exists h, two_line_header h /\ "Hello" = h +:+ "Hello".
Proof.
  split; [vm_compute; reflexivity|].
  split; [vm_compute; reflexivity|].
  intros (h & (title & subtitle & _ & _ & ->) & Heq).
  apply (f_equal String.length) in Heq.
  rewrite !string_app_length in Heq. cbn in Heq. lia.
Qed.

(** C3 (amended): the file a script writes is its heading immediately
    followed by the unmodified body and nothing else, where the heading is
    a title line and a subtitle line, each followed by a blank line, for
    [data_engineer.py], [backend_developer.py], [data_analyst.py],
    [project_manager.py] and [qa_devops.py]; a title line followed by a
    blank line for [system_architect.py]; and empty for
    [briefing_generator.py]. *)
Theorem artifact_is_heading_then_body
    (remote : string -> Request -> error + Response)
    (texts : Script -> Prompts) (s : Script) (a : Artifact) (w : World) :
  artifact_of s = Some a ->
  fst (run remote texts s w) = inr tt ->
  header_shape s (header a)
  /\ exists req body rest,
       creates_of (trace (snd (run remote texts s w)))
       = [(req, inr {| content := Text body :: rest |})]
       /\ data <$> files (snd (run remote texts s w)) !! art_path a
          = Some (header a +:+ body).
Proof.
  intros Ha Hok. split; [now apply header_shape_of|].
  pose proof (run_outcome remote texts s w) as H.
  rewrite Hok in H. apply success_inv in H.
  destruct H as (k & req & body & rest & Hk & Hr & Hc & Hout & Hfile).
  exists req, body, rest. split; [assumption|].
  rewrite Ha in Hfile. destruct Hfile as (fl & -> & Hdata).
  now rewrite lookup_insert_eq; cbn; rewrite Hdata.
Qed.

Lemma artifact_is_heading_then_body_witness :
  artifact_of SystemArchitect = Some architecture_artifact
  /\ fst (run Sample.hello Sample.texts SystemArchitect Sample.with_key)
     = inr tt
  /\ header_shape SystemArchitect (header architecture_artifact)
  /\ exists req body rest,
       creates_of
         (trace (snd (run Sample.hello Sample.texts SystemArchitect
                        Sample.with_key)))
       = [(req, inr {| content := Text body :: rest |})]
       /\ data <$> files (snd (run Sample.hello Sample.texts SystemArchitect
                                 Sample.with_key))
                   !! art_path architecture_artifact
          = Some (header architecture_artifact +:+ body).
Proof.
  split; [reflexivity|].
  split; [vm_compute; reflexivity|].
  apply (artifact_is_heading_then_body Sample.hello Sample.texts
           SystemArchitect architecture_artifact Sample.with_key);
    [reflexivity | vm_compute; reflexivity].
Defined.

(** C7: when a script is run twice and both runs succeed, the output file
    holds the heading and the body of the second run only; no other file
    differs from before the two runs. *)
Theorem second_run_overwrites
    (remote1 remote2 : string -> Request -> error + Response)
    (texts : Script -> Prompts) (s : Script) (a : Artifact) (w : World) :
  artifact_of s = Some a ->
  fst (run remote1 texts s w) = inr tt ->
  fst (run remote2 texts s (snd (run remote1 texts s w))) = inr tt ->
  exists req body2 rest,
    creates_of
      (trace (snd (run remote2 texts s (snd (run remote1 texts s w)))))
    = [(req, inr {| content := Text body2 :: rest |})]
    /\ data <$> files (snd (run remote2 texts s (snd (run remote1 texts s w))))
                !! art_path a
       = Some (header a +:+ body2)
    /\ forall path, path <> art_path a ->
         files (snd (run remote2 texts s (snd (run remote1 texts s w))))
           !! path
         = files w !! path.
Proof.
  intros Ha Hok1 Hok2.
  pose proof (run_outcome remote1 texts s w) as H1.
  rewrite Hok1 in H1. apply success_inv in H1.
  destruct H1 as (k1 & req1 & body1 & rest1 & _ & _ & _ & _ & Hfile1).
  pose proof (run_outcome remote2 texts s (snd (run remote1 texts s w))) as H2.
  rewrite Hok2 in H2. apply success_inv in H2.
  destruct H2 as (k & req & body2 & rest & Hk & Hr & Hc & Hout & Hfile2).
  rewrite Ha in Hfile1, Hfile2.
  destruct Hfile1 as (fl1 & Hfiles1 & _).
  destruct Hfile2 as (fl2 & Hfiles2 & Hdata2).
  exists req, body2, rest. split; [assumption|].
  rewrite Hfiles2, Hfiles1. split.
  - now rewrite lookup_insert_eq; cbn; rewrite Hdata2.
  - intros path Hne. now rewrite !lookup_insert_ne by congruence.
Qed.

Lemma second_run_overwrites_witness :
  artifact_of DataEngineer = Some (artifact_of_guide data_engineer_guide)
  /\ fst (run Sample.hello Sample.texts DataEngineer Sample.with_old_guide)
     = inr tt
  /\ fst (run Sample.goodbye Sample.texts DataEngineer
            (snd (run Sample.hello Sample.texts DataEngineer
                    Sample.with_old_guide)))
     = inr tt
  /\ exists req body2 rest,
       creates_of
         (trace (snd (run Sample.goodbye Sample.texts DataEngineer
                        (snd (run Sample.hello Sample.texts DataEngineer
                                Sample.with_old_guide)))))
       = [(req, inr {| content := Text body2 :: rest |})]
       /\ data <$> files (snd (run Sample.goodbye Sample.texts DataEngineer
                                 (snd (run Sample.hello Sample.texts
                                         DataEngineer Sample.with_old_guide))))
                   !! guide_path data_engineer_guide
          = Some (header (artifact_of_guide data_engineer_guide) +:+ body2)
       /\ forall path, path <> guide_path data_engineer_guide ->
            files (snd (run Sample.goodbye Sample.texts DataEngineer
                          (snd (run Sample.hello Sample.texts DataEngineer
                                  Sample.with_old_guide)))) !! path
            = files Sample.with_old_guide !! path.
Proof.
  split; [reflexivity|].
  split; [vm_compute; reflexivity|].
  split; [vm_compute; reflexivity|].
  apply (second_run_overwrites Sample.hello Sample.goodbye Sample.texts
           DataEngineer (artifact_of_guide data_engineer_guide)
           Sample.with_old_guide);
    [reflexivity | vm_compute; reflexivity | vm_compute; reflexivity].
Defined.

(** ** Reading and encoding the screenshots *)

Lemma encode_image_cases (path : string) (w : World) :
  (exists f, files w !! path = Some f /\ readable f = true
             /\ encode_image path w
                = (inr (Base64.standard_b64encode (data f)),
                   add_events [EvOpenRead path; EvClose path] w))
  \/ (can_read w path = false /\ encode_image path w = (inl IOError, w)).
Proof.
  unfold encode_image, mbind, M_bind.
  destruct (read_binary_cases path w) as [(f & Hf & Hr & ->)|[Hu ->]].
  - left. exists f. now repeat split.
  - now right.
Qed.

Lemma can_read_true (w : World) (path : string) (f : File) :
  files w !! path = Some f -> readable f = true -> can_read w path = true.
Proof. unfold can_read. now intros -> ->. Qed.

(** C5: an image path that cannot be read makes [encode_image] raise
    [IOError]; [generate_briefing] then raises it too and
    [client.messages.create] is not invoked, because both images are
    encoded before the request is made. *)
Theorem unreadable_image_stops_before_call
    (remote : string -> Request -> error + Response)
    (texts : Script -> Prompts) (client : Client)
    (oura_screenshot_path training_log_path : string) (w : World) :
  can_read w oura_screenshot_path = false
  \/ can_read w training_log_path = false ->
  (forall path, can_read w path = false ->
                fst (encode_image path w) = inl IOError)
  /\ fst (generate_briefing remote texts client
            oura_screenshot_path training_log_path w) = inl IOError
  /\ creates_of
       (trace (snd (generate_briefing remote texts client
                      oura_screenshot_path training_log_path w)))
     = creates_of (trace w).
Proof.
  intros Hun. split.
  - intros path Hp.
    destruct (encode_image_cases path w) as [(f & Hf & Hr & _)|[_ ->]];
      [|reflexivity].
    rewrite (can_read_true _ _ _ Hf Hr) in Hp. discriminate.
  - unfold generate_briefing, mbind, M_bind.
    destruct (encode_image_cases oura_screenshot_path w)
      as [(f1 & Hf1 & Hr1 & ->)|[_ ->]]; [|now split].
    destruct Hun as [Hun|Hun];
      [rewrite (can_read_true _ _ _ Hf1 Hr1) in Hun; discriminate|].
    set (w1 := add_events _ w).
    destruct (encode_image_cases training_log_path w1)
      as [(f2 & Hf2 & Hr2 & _)|[_ ->]].
    + change (files w1) with (files w) in Hf2.
      rewrite (can_read_true _ _ _ Hf2 Hr2) in Hun. discriminate.
    + split; [reflexivity|]. cbn [snd]. unfold w1; cbn [trace add_events].
      now rewrite creates_of_app, app_nil_r.
Qed.

Lemma unreadable_image_stops_before_call_witness :
  (can_read Sample.with_key oura_morning = false
   \/ can_read Sample.with_key training_log = false)
  /\ (forall path, can_read Sample.with_key path = false ->
                   fst (encode_image path Sample.with_key) = inl IOError)
  /\ fst (generate_briefing Sample.hello Sample.texts
            {| api_key := Some "sk-test" |} oura_morning training_log
            Sample.with_key) = inl IOError
  /\ creates_of
       (trace (snd (generate_briefing Sample.hello Sample.texts
                      {| api_key := Some "sk-test" |} oura_morning
                      training_log Sample.with_key)))
     = creates_of (trace Sample.with_key).
Proof.
  split; [left; vm_compute; reflexivity|].
  apply (unreadable_image_stops_before_call Sample.hello Sample.texts
           {| api_key := Some "sk-test" |} oura_morning training_log
           Sample.with_key).
  left; vm_compute; reflexivity.
Defined.

(** C6, as stated, fails: what [encode_image] returns is not the content
    of the file but its base64 text, and it carries no mime type. *)
Lemma encode_image_returns_base64_text :
  files Sample.with_screenshots !! oura_morning = Some (Sample.png_file "M")
  /\ fst (encode_image oura_morning Sample.with_screenshots) = inr "TQ=="
  /\ "TQ==" <> data (Sample.png_file "M").
Proof.
  split; [vm_compute; reflexivity|].
  split; [vm_compute; reflexivity|].
  discriminate.
Qed.

(** C6 (amended): for a readable path [encode_image] reads the whole
    file and returns the standard base64 text of its full content, with no
    mime type; it is [generate_briefing] that puts each encoded image in
    an image block of type [base64] with the fixed media type
    [image/png], followed by the text prompt. *)
Theorem encode_image_is_base64_of_whole_file
    (remote : string -> Request -> error + Response)
    (texts : Script -> Prompts) (client : Client)
    (oura_screenshot_path training_log_path : string) (f1 f2 : File)
    (w : World) :
  files w !! oura_screenshot_path = Some f1 -> readable f1 = true ->
  files w !! training_log_path = Some f2 -> readable f2 = true ->
  fst (encode_image oura_screenshot_path w)
  = inr (Base64.standard_b64encode (data f1))
  /\ exists req res prompt,
       creates_of
         (trace (snd (generate_briefing remote texts client
                        oura_screenshot_path training_log_path w)))
       = creates_of (trace w) ++ [(req, res)]
       /\ turn_content <$> messages req
          = [Blocks
               [Image {| source_type := "base64"; media_type := "image/png";
                         source_data := Base64.standard_b64encode (data f1) |};
                Image {| source_type := "base64"; media_type := "image/png";
                         source_data := Base64.standard_b64encode (data f2) |};
                Text prompt]].
Proof.
  intros Hf1 Hr1 Hf2 Hr2.
  pose proof (can_read_true _ _ _ Hf1 Hr1) as Hc1.
  pose proof (can_read_true _ _ _ Hf2 Hr2) as Hc2.
  split.
  - destruct (encode_image_cases oura_screenshot_path w)
      as [(f & Hf & _ & ->)|[Hu _]]; [|congruence].
    rewrite Hf1 in Hf. now injection Hf as <-.
  - unfold generate_briefing, mbind, M_bind.
    destruct (encode_image_cases oura_screenshot_path w)
      as [(f & Hf & _ & ->)|[Hu _]]; [|congruence].
    rewrite Hf1 in Hf; injection Hf as <-.
    set (w1 := add_events _ w).
    destruct (encode_image_cases training_log_path w1)
      as [(f & Hf & _ & ->)|[Hu _]];
      [|change (can_read w1) with (can_read w) in Hu; congruence].
    change (files w1) with (files w) in Hf.
    rewrite Hf2 in Hf; injection Hf as <-.
    unfold messages_create.
    destruct (match api_key client with
              | Some k => remote k _
              | None => inl AuthenticationError
              end) as [e|m] eqn:Eres.
    + exists (briefing_request texts (Base64.standard_b64encode (data f1))
                (Base64.standard_b64encode (data f2))), (inl e).
      eexists. split; [|reflexivity].
      cbn [snd]. unfold w1; world_fields.
      now rewrite !creates_of_app, !app_nil_r.
    + exists (briefing_request texts (Base64.standard_b64encode (data f1))
                (Base64.standard_b64encode (data f2))), (inr m).
      eexists. split; [|reflexivity].
      destruct m as [[|[t|src] rest]]; cbn [content0_text content];
        unfold raise, mret, M_ret; cbn [snd];
        unfold w1; world_fields;
        now rewrite !creates_of_app, !app_nil_r.
Qed.

Lemma encode_image_is_base64_of_whole_file_witness :
  files Sample.with_screenshots !! oura_morning = Some (Sample.png_file "M")
  /\ readable (Sample.png_file "M") = true
  /\ files Sample.with_screenshots !! training_log
     = Some (Sample.png_file "Man")
  /\ readable (Sample.png_file "Man") = true
  /\ fst (encode_image oura_morning Sample.with_screenshots)
     = inr (Base64.standard_b64encode (data (Sample.png_file "M")))
  /\ exists req res prompt,
       creates_of
         (trace (snd (generate_briefing Sample.hello Sample.texts
                        {| api_key := Some "sk-test" |} oura_morning
                        training_log Sample.with_screenshots)))
       = creates_of (trace Sample.with_screenshots) ++ [(req, res)]
       /\ turn_content <$> messages req
          = [Blocks
               [Image {| source_type := "base64"; media_type := "image/png";
                         source_data :=
                           Base64.standard_b64encode
                             (data (Sample.png_file "M")) |};
                Image {| source_type := "base64"; media_type := "image/png";
                         source_data :=
                           Base64.standard_b64encode
                             (data (Sample.png_file "Man")) |};
                Text prompt]].
Proof.
  split; [vm_compute; reflexivity|].
  split; [reflexivity|].
  split; [vm_compute; reflexivity|].
  split; [reflexivity|].
  apply (encode_image_is_base64_of_whole_file Sample.hello Sample.texts
           {| api_key := Some "sk-test" |} oura_morning training_log
           (Sample.png_file "M") (Sample.png_file "Man")
           Sample.with_screenshots);
    first [reflexivity | vm_compute; reflexivity].
Defined.

(** C10: for every readable file, decoding the base64 text returned by
    [encode_image] gives back exactly the bytes of the file. *)
Theorem encode_image_round_trip (path : string) (f : File) (w : World) :
  files w !! path = Some f -> readable f = true ->
  exists b64,
    fst (encode_image path w) = inr b64
    /\ Base64.standard_b64decode b64 = Some (data f).
Proof.
  intros Hf Hr.
  destruct (encode_image_cases path w) as [(f' & Hf' & _ & ->)|[Hu _]].
  - rewrite Hf in Hf'; injection Hf' as <-.
    eexists. split; [reflexivity|]. apply Base64Facts.standard_b64decode_encode.
  - rewrite (can_read_true _ _ _ Hf Hr) in Hu. discriminate.
Qed.

Lemma encode_image_round_trip_witness :
  files Sample.with_screenshots !! training_log
  = Some (Sample.png_file "Man")
  /\ readable (Sample.png_file "Man") = true
  /\ exists b64,
       fst (encode_image training_log Sample.with_screenshots) = inr b64
       /\ Base64.standard_b64decode b64 = Some (data (Sample.png_file "Man")).
Proof.
  split; [vm_compute; reflexivity|].
  split; [reflexivity|].
  apply (encode_image_round_trip training_log (Sample.png_file "Man")
           Sample.with_screenshots);
    [vm_compute; reflexivity | reflexivity].
Defined.

(** ** Failures *)

Lemma key_of_None (w : World) :
  environ w !! api_key_name = None ->
  (forall vars, dotenv w = Some vars -> vars !! api_key_name = None) ->
  key_of w = None.
Proof.
  intros Henv Hdot. unfold key_of, loaded, load_dotenv.
  destruct (dotenv w) as [vars|]; cbn [snd environ set_environ];
    [|assumption].
  apply lookup_union_None. split; [assumption | now apply Hdot].
Qed.

(** Whatever [save] does, it adds no call to the trace, and when it
    fails it has printed nothing. *)
Lemma saved_trace (a : Artifact) (body : string) (w0 w2 : World)
    (r : error + unit) :
  Saved a body w0 r w2 ->
  exists tail,
    trace w2 = trace w0 ++ tail
    /\ creates_of tail = []
    /\ (r = inr tt \/ (r = inl IOError /\ stdout_of tail = "")).
Proof.
  intros H. inversion H as [|fl ws Hws|fl space Hdata]; subst.
  - exists []. rewrite app_nil_r. auto.
  - eexists. split; [reflexivity|]. cbn [creates_of stdout_of].
    rewrite creates_of_app, stdout_of_app.
    rewrite (creates_of_writes _ Hws), (stdout_of_writes _ Hws). auto.
  - eexists. split; [reflexivity|]. cbn [creates_of].
    rewrite creates_of_app.
    rewrite creates_of_writes by apply forallb_is_write_map. auto.
Qed.

(** When a file is opened after a stretch of the trace without any
    opening, the whole stretch lies before the opening. *)
Lemma open_write_split (l1 l2 pre post : list Event) (path : string) :
  forallb (fun ev => negb (is_open_write ev)) l1 = true ->
  l1 ++ l2 = pre ++ EvOpenWrite path :: post ->
  exists mid, pre = l1 ++ mid.
Proof.
  revert pre. induction l1 as [|ev l1 IH]; intros pre Hno Heq.
  - now exists pre.
  - cbn [forallb] in Hno. apply andb_prop in Hno as [Hev Hno].
    destruct pre as [|ev' pre]; cbn [app] in Heq.
    + injection Heq as Hhead _. subst ev. discriminate Hev.
    + injection Heq as Hhead Heq. subst ev'.
      destruct (IH pre Hno Heq) as [mid ->]. now exists mid.
Qed.

Lemma input_then_print_no_open (evs : list Event) (req : Request)
    (res : error + Response) (body : string) :
  forallb input_event evs = true ->
  forallb (fun ev => negb (is_open_write ev))
    (evs ++ [EvCreate req res; EvPrint body]) = true.
Proof.
  intros Hin. rewrite forallb_app. apply andb_true_intro. split; [|reflexivity].
  rewrite forallb_forall in *. intros ev Hev. apply Hin in Hev.
  now destruct ev.
Qed.

(** C4, as stated, fails for [briefing_generator.py]: with no credential
    and no screenshot, it raises [IOError] and the remote call is never
    attempted. *)
Lemma briefing_without_screenshots_raises_io_error :
  environ Sample.without_key !! api_key_name = None
  /\ dotenv Sample.without_key = Some ∅
  /\ fst (run Sample.hello Sample.texts BriefingGenerator Sample.without_key)
     = inl IOError
  /\ creates_of
       (trace (snd (run Sample.hello Sample.texts BriefingGenerator
                      Sample.without_key)))
     = [].
Proof. repeat split; vm_compute; reflexivity. Qed.

(** C4 (amended): with no credential in the environment or in the loaded
    [.env] file, every script fails before any output file is opened and
    before anything is printed. Building the client succeeds; the failure
    is [AuthenticationError], raised by the one attempt at the remote
    call, except that [briefing_generator.py] raises [IOError] before any
    call when one of its two screenshots cannot be read. *)
Theorem missing_credential_fails_before_write
    (remote : string -> Request -> error + Response)
    (texts : Script -> Prompts) (s : Script) (w : World) :
  environ w !! api_key_name = None ->
  (forall vars, dotenv w = Some vars -> vars !! api_key_name = None) ->
  files (snd (run remote texts s w)) = files w
  /\ (forall path, ~ In (EvOpenWrite path) (trace (snd (run remote texts s w))))
  /\ stdout (snd (run remote texts s w)) = ""
  /\ if screenshots_readable s w
     then fst (run remote texts s w) = inl AuthenticationError
          /\ exists req,
               creates_of (trace (snd (run remote texts s w)))
               = [(req, inl AuthenticationError)]
     else fst (run remote texts s w) = inl IOError
          /\ creates_of (trace (snd (run remote texts s w))) = [].
Proof.
  intros Henv Hdot. pose proof (key_of_None w Henv Hdot) as Hkey.
  pose proof (run_outcome remote texts s w) as H.
  destruct (run remote texts s w) as [r w']; cbn [fst snd] in *.
  inversion H as [evs Hin Hcr Hun
                 |evs req e Hin Hcr Hrd Hres
                 |evs req m e Hin Hcr Hres Hno
                 |evs req body rest Hin Hcr Hres Hart
                 |evs req body rest a r0 w0 Hin Hcr Hres Hart Hsaved];
    subst;
    try (rewrite (call_result_no_key remote w req Hkey) in Hres;
         discriminate Hres).
  - unfold stdout. rewrite trace_base, files_base, Hun.
    repeat split; try assumption.
    + intros path. now apply input_not_open_write.
    + now apply stdout_of_input.
  - rewrite (call_result_no_key remote w req Hkey) in Hres.
    injection Hres as <-.
    unfold stdout. rewrite trace_base, files_base, Hrd.
    repeat split.
    + intros path Hp. apply in_app_or in Hp as [Hp|[Hp|[]]];
        [now apply (input_not_open_write evs path) | discriminate Hp].
    + rewrite stdout_of_app, (stdout_of_input _ Hin). reflexivity.
    + exists req. now rewrite creates_of_app, Hcr.
Qed.

Lemma missing_credential_fails_before_write_witness :
  environ Sample.without_key !! api_key_name = None
  /\ (forall vars, dotenv Sample.without_key = Some vars ->
                   vars !! api_key_name = None)
  /\ files (snd (run Sample.hello Sample.texts ProjectManager
                   Sample.without_key))
     = files Sample.without_key
  /\ (forall path,
        ~ In (EvOpenWrite path)
            (trace (snd (run Sample.hello Sample.texts ProjectManager
                           Sample.without_key))))
  /\ stdout (snd (run Sample.hello Sample.texts ProjectManager
                    Sample.without_key)) = ""
  /\ fst (run Sample.hello Sample.texts ProjectManager Sample.without_key)
     = inl AuthenticationError
  /\ exists req,
       creates_of (trace (snd (run Sample.hello Sample.texts ProjectManager
                                 Sample.without_key)))
       = [(req, inl AuthenticationError)].
Proof.
  assert (Henv : environ Sample.without_key !! api_key_name = None)
    by (vm_compute; reflexivity).
  assert (Hdot : forall vars, dotenv Sample.without_key = Some vars ->
                              vars !! api_key_name = None)
    by (intros vars [= <-]; vm_compute; reflexivity).
  split; [exact Henv|]. split; [exact Hdot|].
  exact (missing_credential_fails_before_write Sample.hello Sample.texts
           ProjectManager Sample.without_key Henv Hdot).
Defined.

(** C9: when the call to the service raises, the run ends with that
    error, no file is ever opened for writing, so every file is left as it
    was, and nothing has been printed. *)
Theorem failed_call_leaves_files_untouched
    (remote : string -> Request -> error + Response)
    (texts : Script -> Prompts) (s : Script) (w : World)
    (req : Request) (e : error) :
  In (req, inl e) (creates_of (trace (snd (run remote texts s w)))) ->
  fst (run remote texts s w) = inl e
  /\ files (snd (run remote texts s w)) = files w
  /\ (forall path, ~ In (EvOpenWrite path) (trace (snd (run remote texts s w))))
  /\ stdout (snd (run remote texts s w)) = "".
Proof.
  intros Hcall. pose proof (run_outcome remote texts s w) as H.
  destruct (run remote texts s w) as [r w']; cbn [fst snd] in *.
  inversion H as [evs Hin Hcr Hun
                 |evs req' e' Hin Hcr Hrd Hres
                 |evs req' m e' Hin Hcr Hres Hno
                 |evs req' body rest Hin Hcr Hres Hart
                 |evs req' body rest a r0 w0 Hin Hcr Hres Hart Hsaved];
    subst.
  - rewrite trace_base, Hcr in Hcall. destruct Hcall.
  - rewrite trace_base, creates_of_app, Hcr in Hcall.
    destruct Hcall as [[= <- <-]|[]].
    unfold stdout. rewrite trace_base, files_base.
    repeat split.
    + intros path Hp. apply in_app_or in Hp as [Hp|[Hp|[]]];
        [now apply (input_not_open_write evs path) | discriminate Hp].
    + rewrite stdout_of_app, (stdout_of_input _ Hin). reflexivity.
  - rewrite trace_base, creates_of_app, Hcr in Hcall.
    destruct Hcall as [[=]|[]].
  - rewrite trace_base, creates_call_print in Hcall by assumption.
    destruct Hcall as [[=]|[]].
  - destruct (saved_trace _ _ _ _ _ Hsaved) as (tail & Htr & Htail & _).
    rewrite Htr, trace_base, creates_of_app, Htail in Hcall.
    rewrite creates_call_print in Hcall by assumption.
    destruct Hcall as [[=]|[]].
Qed.

Lemma failed_call_leaves_files_untouched_witness :
  In (role_request (Sample.texts DataEngineer), inl ServiceError)
     (creates_of (trace (snd (run Sample.down Sample.texts DataEngineer
                                Sample.with_old_guide))))
  /\ fst (run Sample.down Sample.texts DataEngineer Sample.with_old_guide)
     = inl ServiceError
  /\ files (snd (run Sample.down Sample.texts DataEngineer
                   Sample.with_old_guide))
     = files Sample.with_old_guide
  /\ (forall path,
        ~ In (EvOpenWrite path)
            (trace (snd (run Sample.down Sample.texts DataEngineer
                           Sample.with_old_guide))))
  /\ stdout (snd (run Sample.down Sample.texts DataEngineer
                    Sample.with_old_guide)) = "".
Proof.
  assert (Hcall :
    In (role_request (Sample.texts DataEngineer), inl ServiceError)
       (creates_of (trace (snd (run Sample.down Sample.texts DataEngineer
                                  Sample.with_old_guide)))))
    by (left; vm_compute; reflexivity).
  split; [exact Hcall|].
  exact (failed_call_leaves_files_untouched Sample.down Sample.texts
           DataEngineer Sample.with_old_guide _ _ Hcall).
Defined.

(** C8: once the service has answered with a text in block 0, that body
    is printed before any file is opened for writing; so when opening or
    writing the output file then fails with [IOError], standard output
    holds exactly the body. *)
Theorem body_printed_before_file_opened
    (remote : string -> Request -> error + Response)
    (texts : Script -> Prompts) (s : Script) (w : World)
    (req : Request) (body : string) (rest : list ContentBlock) :
  In (req, inr {| content := Text body :: rest |})
     (creates_of (trace (snd (run remote texts s w)))) ->
  (forall pre path post,
     trace (snd (run remote texts s w)) = pre ++ EvOpenWrite path :: post ->
     In (EvPrint body) pre)
  /\ (fst (run remote texts s w) = inl IOError ->
      stdout (snd (run remote texts s w)) = body +:+ nl).
Proof.
  intros Hcall. pose proof (run_outcome remote texts s w) as H.
  destruct (run remote texts s w) as [r w']; cbn [fst snd] in *.
  inversion H as [evs Hin Hcr Hun
                 |evs req' e' Hin Hcr Hrd Hres
                 |evs req' m e' Hin Hcr Hres Hno
                 |evs req' body' rest' Hin Hcr Hres Hart
                 |evs req' body' rest' a r0 w0 Hin Hcr Hres Hart Hsaved];
    subst.
  - rewrite trace_base, Hcr in Hcall. destruct Hcall.
  - rewrite trace_base, creates_of_app, Hcr in Hcall.
    destruct Hcall as [[=]|[]].
  - rewrite trace_base, creates_of_app, Hcr in Hcall.
    destruct Hcall as [Heq|[]]. injection Heq as ? ?; subst.
    cbn [content] in Hno.
    destruct Hno as [[[=] _]|[(src & rest' & [=]) _]].
  - rewrite trace_base, creates_call_print in Hcall by assumption.
    destruct Hcall as [Heq|[]]. injection Heq as ? ? ?; subst.
    split; [|discriminate].
    intros pre path post Htr. rewrite trace_base in Htr.
    rewrite <- (app_nil_r (evs ++ _)) in Htr.
    apply open_write_split in Htr as [mid ->];
      [|now apply input_then_print_no_open].
    apply in_or_app. left. apply in_or_app. right. right. now left.
  - destruct (saved_trace _ _ _ _ _ Hsaved)
      as (tail & Htr & Htail & Hfail).
    rewrite trace_base in Htr.
    rewrite Htr, creates_of_app, Htail in Hcall.
    rewrite creates_call_print in Hcall by assumption.
    destruct Hcall as [Heq|[]]. injection Heq as ? ? ?; subst.
    split.
    + intros pre path post Hsplit. rewrite Htr in Hsplit.
      apply open_write_split in Hsplit as [mid ->];
        [|now apply input_then_print_no_open].
      apply in_or_app. left. apply in_or_app. right. right. now left.
    + intros ->. destruct Hfail as [[=]|[_ Hquiet]].
      unfold stdout. rewrite Htr, stdout_of_app, Hquiet.
      rewrite stdout_call_print by assumption.
      now rewrite string_app_assoc.
Qed.

Lemma body_printed_before_file_opened_witness :
  In (role_request (Sample.texts DataAnalyst),
      inr {| content := [Text "Hello"; Text "and more"] |})
     (creates_of (trace (snd (run Sample.hello Sample.texts DataAnalyst
                                Sample.read_only))))
  /\ fst (run Sample.hello Sample.texts DataAnalyst Sample.read_only)
     = inl IOError
  /\ (forall pre path post,
        trace (snd (run Sample.hello Sample.texts DataAnalyst
                      Sample.read_only))
        = pre ++ EvOpenWrite path :: post ->
        In (EvPrint "Hello") pre)
  /\ (fst (run Sample.hello Sample.texts DataAnalyst Sample.read_only)
      = inl IOError ->
      stdout (snd (run Sample.hello Sample.texts DataAnalyst
                     Sample.read_only))
      = "Hello" +:+ nl).
Proof.
  assert (Hcall :
    In (role_request (Sample.texts DataAnalyst),
        inr {| content := [Text "Hello"; Text "and more"] |})
       (creates_of (trace (snd (run Sample.hello Sample.texts DataAnalyst
                                  Sample.read_only)))))
    by (left; vm_compute; reflexivity).
  split; [exact Hcall|].
  split; [vm_compute; reflexivity|].
  exact (body_printed_before_file_opened Sample.hello Sample.texts
           DataAnalyst Sample.read_only _ _ _ Hcall).
Defined.


(** ** Further properties of a run *)

Ltac invert_outcome H :=
  inversion H as [evs Hin Hcr Hun
                 |evs req' e' Hin Hcr Hrd Hres
                 |evs req' m' e' Hin Hcr Hres Hno
                 |evs req' body' rest' Hin Hcr Hres Hart
                 |evs req' body' rest' a' r0 w0 Hin Hcr Hres Hart Hsaved];
  subst.

(** X1: a run invokes [client.messages.create] at most once, whatever
    its outcome: no script retries a failed call or calls again after a
    failed write. *)
Theorem at_most_one_call
    (remote : string -> Request -> error + Response)
    (texts : Script -> Prompts) (s : Script) (w : World) :
  length (creates_of (trace (snd (run remote texts s w)))) <= 1.
Proof.
  pose proof (run_outcome remote texts s w) as H.
  destruct (run remote texts s w) as [r w']; cbn [fst snd] in *.
  invert_outcome H.
  - rewrite trace_base, Hcr. cbn. lia.
  - rewrite trace_base, creates_of_app, Hcr. cbn. lia.
  - rewrite trace_base, creates_of_app, Hcr. cbn. lia.
  - rewrite trace_base, creates_call_print by assumption. cbn. lia.
  - destruct (saved_trace _ _ _ _ _ Hsaved) as (tail & Htr & Htail & _).
    rewrite Htr, trace_base, creates_of_app, Htail.
    rewrite creates_call_print by assumption. cbn. lia.
Qed.

(** X2: when the response has no block 0, or block 0 is not a text
    block, [message.content[0].text] raises ([IndexError], respectively
    [AttributeError]); the run ends with that error having printed
    nothing and opened no file, so every file is as before. *)
Theorem response_without_text_raises
    (remote : string -> Request -> error + Response)
    (texts : Script -> Prompts) (s : Script) (w : World)
    (req : Request) (m : Response) (e : error) :
  In (req, inr m) (creates_of (trace (snd (run remote texts s w)))) ->
  content0_error m = Some e ->
  fst (run remote texts s w) = inl e
  /\ files (snd (run remote texts s w)) = files w
  /\ stdout (snd (run remote texts s w)) = ""
  /\ (forall path,
        ~ In (EvOpenWrite path) (trace (snd (run remote texts s w)))).
Proof.
  intros Hcall Herr. pose proof (run_outcome remote texts s w) as H.
  destruct (run remote texts s w) as [r w']; cbn [fst snd] in *.
  invert_outcome H.
  - rewrite trace_base, Hcr in Hcall. destruct Hcall.
  - rewrite trace_base, creates_of_app, Hcr in Hcall.
    destruct Hcall as [[=]|[]].
  - rewrite trace_base, creates_of_app, Hcr in Hcall.
    destruct Hcall as [Heq|[]]. injection Heq as ? ?; subst.
    unfold stdout. rewrite trace_base, files_base.
    assert (e = e') as ->.
    { unfold content0_error in Herr.
      destruct Hno as [[Hc ->]|[(src & rest & Hc) ->]];
        rewrite Hc in Herr; congruence. }
    repeat split.
    + rewrite stdout_of_app, (stdout_of_input _ Hin). reflexivity.
    + intros path Hp. apply in_app_or in Hp as [Hp|[Hp|[]]];
        [now apply (input_not_open_write evs path) | discriminate Hp].
  - rewrite trace_base, creates_call_print in Hcall by assumption.
    destruct Hcall as [Heq|[]]. injection Heq as ? ?; subst.
    discriminate Herr.
  - destruct (saved_trace _ _ _ _ _ Hsaved) as (tail & Htr & Htail & _).
    rewrite Htr, trace_base, creates_of_app, Htail in Hcall.
    rewrite creates_call_print in Hcall by assumption.
    destruct Hcall as [Heq|[]]. injection Heq as ? ?; subst.
    discriminate Herr.
Qed.

Lemma response_without_text_raises_witness :
  In (role_request (Sample.texts DataEngineer), inr {| content := [] |})
     (creates_of (trace (snd (run MoreSamples.empty_answer Sample.texts
                                DataEngineer Sample.with_old_guide))))
  /\ content0_error {| content := [] |} = Some IndexError
  /\ fst (run MoreSamples.empty_answer Sample.texts DataEngineer
            Sample.with_old_guide) = inl IndexError
  /\ files (snd (run MoreSamples.empty_answer Sample.texts DataEngineer
                   Sample.with_old_guide))
     = files Sample.with_old_guide
  /\ stdout (snd (run MoreSamples.empty_answer Sample.texts DataEngineer
                    Sample.with_old_guide)) = ""
  /\ (forall path,
        ~ In (EvOpenWrite path)
            (trace (snd (run MoreSamples.empty_answer Sample.texts
                           DataEngineer Sample.with_old_guide)))).
Proof.
  assert (Hcall :
    In (role_request (Sample.texts DataEngineer), inr {| content := [] |})
       (creates_of (trace (snd (run MoreSamples.empty_answer Sample.texts
                                  DataEngineer Sample.with_old_guide)))))
    by (left; vm_compute; reflexivity).
  split; [exact Hcall|]. split; [reflexivity|].
  exact (response_without_text_raises MoreSamples.empty_answer Sample.texts
           DataEngineer Sample.with_old_guide _ _ _ Hcall eq_refl).
Defined.



(** X4: whatever the outcome, a run changes no file other than the
    output file of its script; [test_claude.py], which has none, changes
    no file at all. In particular the screenshots are never modified. *)
Theorem only_output_file_changes
    (remote : string -> Request -> error + Response)
    (texts : Script -> Prompts) (s : Script) (w : World) (path : string) :
  (forall a, artifact_of s = Some a -> path <> art_path a) ->
  files (snd (run remote texts s w)) !! path = files w !! path.
Proof.
  intros Hother. pose proof (run_outcome remote texts s w) as H.
  destruct (run remote texts s w) as [r w']; cbn [fst snd] in *.
  invert_outcome H; rewrite ?files_base; try reflexivity.
  specialize (Hother _ Hart).
  inversion Hsaved as [|fl ws Hws|fl space Hdata]; subst.
  - now rewrite files_base.
  - cbn [files add_events set_disk].
    rewrite lookup_insert_ne by congruence. now rewrite files_loaded_fresh.
  - cbn [files add_events set_disk].
    rewrite lookup_insert_ne by congruence. now rewrite files_loaded_fresh.
Qed.

Lemma only_output_file_changes_witness :
  (forall a, artifact_of BriefingGenerator = Some a ->
             oura_morning <> art_path a)
  /\ files (snd (run Sample.hello Sample.texts BriefingGenerator
                   Sample.with_screenshots)) !! oura_morning
     = files Sample.with_screenshots !! oura_morning.
Proof.
  assert (Hother : forall a, artifact_of BriefingGenerator = Some a ->
                             oura_morning <> art_path a)
    by (intros a [= <-]; discriminate).
  split; [exact Hother|].
  exact (only_output_file_changes Sample.hello Sample.texts BriefingGenerator
           Sample.with_screenshots oura_morning Hother).
Defined.

(** ** The key in use, the handles and the requests *)

Lemma key_of_resolved (w : World) : key_of w = resolved_key w.
Proof.
  unfold key_of, resolved_key, loaded, load_dotenv.
  destruct (dotenv w) as [vars|]; cbn [snd environ set_environ].
  - rewrite lookup_union.
    now destruct (environ w !! api_key_name), (vars !! api_key_name).
  - now destruct (environ w !! api_key_name).
Qed.

(** X5: the call is made with the key of the environment when the
    variable is set there, whatever the [.env] file says; only otherwise
    with the key of the [.env] file; and with neither the call raises
    [AuthenticationError] without consulting the service. *)
Theorem call_uses_resolved_key
    (remote : string -> Request -> error + Response)
    (texts : Script -> Prompts) (s : Script) (w : World)
    (req : Request) (res : error + Response) :
  In (req, res) (creates_of (trace (snd (run remote texts s w)))) ->
  res = match resolved_key w with
        | Some k => remote k req
        | None => inl AuthenticationError
        end.
Proof.
  intros Hcall. rewrite <- key_of_resolved.
  change (res = call_result remote (client_of w) req).
  pose proof (run_outcome remote texts s w) as H.
  destruct (run remote texts s w) as [r w']; cbn [fst snd] in *.
  invert_outcome H.
  - rewrite trace_base, Hcr in Hcall. destruct Hcall.
  - rewrite trace_base, creates_of_app, Hcr in Hcall.
    destruct Hcall as [Heq|[]]. injection Heq as ? ?; subst.
    now rewrite Hres.
  - rewrite trace_base, creates_of_app, Hcr in Hcall.
    destruct Hcall as [Heq|[]]. injection Heq as ? ?; subst.
    now rewrite Hres.
  - rewrite trace_base, creates_call_print in Hcall by assumption.
    destruct Hcall as [Heq|[]]. injection Heq as ? ?; subst.
    now rewrite Hres.
  - destruct (saved_trace _ _ _ _ _ Hsaved) as (tail & Htr & Htail & _).
    rewrite Htr, trace_base, creates_of_app, Htail in Hcall.
    rewrite creates_call_print in Hcall by assumption.
    destruct Hcall as [Heq|[]]. injection Heq as ? ?; subst.
    now rewrite Hres.
Qed.

Lemma call_uses_resolved_key_witness :
  In (test_request, inr {| content := [Text "Hello"; Text "and more"] |})
     (creates_of (trace (snd (run Sample.hello Sample.texts TestClaude
                                MoreSamples.key_in_dotenv))))
  /\ inr {| content := [Text "Hello"; Text "and more"] |}
     = match resolved_key MoreSamples.key_in_dotenv with
       | Some k => Sample.hello k test_request
       | None => inl AuthenticationError
       end.
Proof.
  assert (Hcall :
    In (test_request, inr {| content := [Text "Hello"; Text "and more"] |})
       (creates_of (trace (snd (run Sample.hello Sample.texts TestClaude
                                  MoreSamples.key_in_dotenv)))))
    by (left; vm_compute; reflexivity).
  split; [exact Hcall|].
  exact (call_uses_resolved_key Sample.hello Sample.texts TestClaude
           MoreSamples.key_in_dotenv _ _ Hcall).
Defined.

Lemma file_protocol_app (l1 l2 : list Event) :
  forall opened,
    file_protocol opened (l1 ++ l2)
    = match file_protocol opened l1 with
      | Some opened' => file_protocol opened' l2
      | None => None
      end.
Proof.
  induction l1 as [|ev l1 IH]; intros opened; [reflexivity|].
  destruct ev; cbn [app file_protocol]; try apply IH.
  - destruct opened; [reflexivity | apply IH].
  - destruct opened as [|top opened]; [reflexivity|].
    destruct (String.eqb path top); [apply IH | reflexivity].
Qed.

Lemma neutral_app (l1 l2 : list Event) :
  neutral l1 -> neutral l2 -> neutral (l1 ++ l2).
Proof.
  intros H1 H2 opened. now rewrite file_protocol_app, H1, H2.
Qed.

Lemma file_protocol_writes (ws rest : list Event) (top : string)
    (opened : list string) :
  forallb is_write ws = true ->
  file_protocol (top :: opened) (ws ++ rest)
  = file_protocol (top :: opened) rest.
Proof.
  induction ws as [|ev ws IH]; intros Hws; [reflexivity|].
  destruct ev; try discriminate Hws. cbn [app file_protocol]. now apply IH.
Qed.

Lemma neutral_with_block (path : string) (ws : list Event) :
  forallb is_write ws = true ->
  neutral (EvOpenWrite path :: ws ++ [EvClose path]).
Proof.
  intros Hws opened. cbn [file_protocol].
  rewrite file_protocol_writes by assumption.
  cbn [file_protocol]. now rewrite String.eqb_refl.
Qed.

Lemma neutral_with_block_then_print (path line : string)
    (ws : list Event) :
  forallb is_write ws = true ->
  neutral (EvOpenWrite path :: ws ++ [EvClose path; EvPrint line]).
Proof.
  intros Hws opened. cbn [file_protocol].
  rewrite file_protocol_writes by assumption.
  cbn [file_protocol]. now rewrite String.eqb_refl.
Qed.

Lemma neutral_read (path : string) : neutral [EvOpenRead path; EvClose path].
Proof. intros opened. cbn [file_protocol]. now rewrite String.eqb_refl. Qed.

Lemma well_formed_role_request (p : Prompts) :
  well_formed (role_request p) = true.
Proof. reflexivity. Qed.

Lemma well_formed_briefing_request (texts : Script -> Prompts)
    (oura_image training_image : string) :
  well_formed (briefing_request texts oura_image training_image) = true.
Proof. reflexivity. Qed.

Section Events.

Variable remote : string -> Request -> error + Response.
Variable texts : Script -> Prompts.

(** Getting the response only appends events: balanced reads and at most
    one call, whose request is well formed. *)
Lemma obtain_events (s : Script) (client : Client) (w : World) :
  exists evs,
    snd (obtain remote texts s client w) = add_events evs w
    /\ neutral evs
    /\ (forall req res, In (req, res) (creates_of evs) ->
                        well_formed req = true).
Proof.
  assert (Hcall : forall req,
    exists evs,
      snd (messages_create remote client req w) = add_events evs w
      /\ neutral evs
      /\ (well_formed req = true ->
          forall req' res, In (req', res) (creates_of evs) ->
                           well_formed req' = true)).
  { intros req. eexists [EvCreate req _]. split; [reflexivity|].
    split; [now intros opened|].
    intros Hwf req' res [[= <- _]|[]]. exact Hwf. }
  destruct s; cbn [obtain];
    try (match goal with
         | |- context [messages_create _ _ ?req _] =>
             destruct (Hcall req) as (evs & Hw & Hn & Hwf);
             exists evs;
             split; [exact Hw | split; [exact Hn | now apply Hwf]]
         end).
  unfold mbind, M_bind.
  destruct (encode_image_cases oura_morning w)
    as [(f1 & _ & _ & ->)|[_ ->]].
  2:{ exists []. cbn [snd]. rewrite add_events_nil.
      split; [reflexivity|].
      split; [now intros opened | intros req res []]. }
  set (w1 := add_events _ w).
  destruct (encode_image_cases training_log w1)
    as [(f2 & _ & _ & ->)|[_ ->]].
  2:{ eexists. split; [reflexivity|].
      split; [apply neutral_read | intros req res []]. }
  unfold messages_create; cbn [snd]. unfold w1.
  rewrite add_events_add_events, log_add_events.
  eexists. split; [reflexivity|]. split.
  - repeat apply neutral_app; try apply neutral_read. now intros opened.
  - intros req res [[= <- _]|[]]. apply well_formed_briefing_request.
Qed.

(** Using the response appends a print, then a balanced [with] block and
    possibly the confirmation; never a call. *)
Lemma deliver_events (s : Script) (m : Response) (w : World) :
  exists evs,
    trace (snd (deliver s m w)) = trace w ++ evs
    /\ neutral evs /\ creates_of evs = [].
Proof.
  unfold deliver.
  destruct (content m) as [|[t|src] rest].
  - exists []. cbn. rewrite app_nil_r. now repeat split.
  - unfold mbind, M_bind, print.
    destruct (artifact_of s) as [a|].
    + pose proof (save_saved a t (log (EvPrint t) w)) as HS.
      destruct (save a t (log (EvPrint t) w)) as [r w2]; cbn [fst snd] in *.
      inversion HS as [|fl ws Hws|fl space Hdata]; subst.
      * exists [EvPrint t]. split; [reflexivity|]. now split.
      * exists (EvPrint t
                  :: EvOpenWrite (art_path a) :: ws ++ [EvClose (art_path a)]).
        cbn [trace add_events set_disk log]. rewrite <- app_assoc.
        split; [reflexivity|]. split.
        -- apply (neutral_app [EvPrint t]); [now intros opened|].
           now apply neutral_with_block.
        -- cbn [creates_of]. rewrite creates_of_app.
           now rewrite (creates_of_writes _ Hws).
      * exists (EvPrint t
                  :: EvOpenWrite (art_path a)
                  :: map (EvWrite (art_path a)) (art_heading a ++ [t])
                  ++ [EvClose (art_path a); EvPrint (art_saved a)]).
        cbn [trace add_events set_disk log]. rewrite <- app_assoc.
        split; [reflexivity|]. split.
        -- apply (neutral_app [EvPrint t]); [now intros opened|].
           apply neutral_with_block_then_print, forallb_is_write_map.
        -- cbn [creates_of]. rewrite creates_of_app.
           now rewrite creates_of_writes by apply forallb_is_write_map.
    + exists [EvPrint t]. split; [reflexivity|]. now split.
  - exists []. cbn. rewrite app_nil_r. now repeat split.
Qed.

(** The trace of a run: what getting the response appends, then what
    using it appends. *)
Lemma run_events (s : Script) (w : World) :
  exists evs1 evs2,
    trace (snd (run remote texts s w)) = evs1 ++ evs2
    /\ neutral evs1 /\ neutral evs2
    /\ creates_of evs2 = []
    /\ (forall req res, In (req, res) (creates_of evs1) ->
                        well_formed req = true).
Proof.
  rewrite run_unfold.
  destruct (obtain_events s (client_of w) (loaded (fresh w)))
    as (evs1 & Hw1 & Hn1 & Hwf).
  destruct (obtain remote texts s (client_of w) (loaded (fresh w)))
    as [[e|m] w1]; cbn [snd] in Hw1; subst w1.
  - exists evs1, []. cbn [snd]. rewrite trace_base, app_nil_r.
    now repeat split.
  - destruct (deliver_events s m (add_events evs1 (loaded (fresh w))))
      as (evs2 & Htr & Hn2 & Hcr).
    exists evs1, evs2. rewrite Htr, trace_base. now repeat split.
Qed.

End Events.

(** X6: along every run, whatever its outcome, file handles are used
    with discipline: a write happens only while a file is open, each close
    releases the handle opened last, and when the run ends (normally or
    with an error) no handle is left open. *)
Theorem file_handles_are_released
    (remote : string -> Request -> error + Response)
    (texts : Script -> Prompts) (s : Script) (w : World) :
  file_protocol [] (trace (snd (run remote texts s w))) = Some [].
Proof.
  destruct (run_events remote texts s w)
    as (evs1 & evs2 & -> & Hn1 & Hn2 & _).
  now apply neutral_app.
Qed.

(** X7: every request a script sends is well formed: the fixed model,
    a token budget between 1 and 4000, and exactly one turn, of role
    user, whose content is a string or a non-empty list of blocks. *)
Theorem requests_are_well_formed
    (remote : string -> Request -> error + Response)
    (texts : Script -> Prompts) (s : Script) (w : World)
    (req : Request) (res : error + Response) :
  In (req, res) (creates_of (trace (snd (run remote texts s w)))) ->
  well_formed req = true.
Proof.
  destruct (run_events remote texts s w)
    as (evs1 & evs2 & -> & _ & _ & Hcr & Hwf).
  rewrite creates_of_app, Hcr, app_nil_r. apply Hwf.
Qed.

Lemma requests_are_well_formed_witness :
  In (briefing_request Sample.texts "TQ==" "TWFu",
      inr {| content := [Text "Hello"; Text "and more"] |})
     (creates_of (trace (snd (run Sample.hello Sample.texts BriefingGenerator
                                Sample.with_screenshots))))
  /\ well_formed (briefing_request Sample.texts "TQ==" "TWFu") = true.
Proof.
  assert (Hcall :
    In (briefing_request Sample.texts "TQ==" "TWFu",
        inr {| content := [Text "Hello"; Text "and more"] |})
       (creates_of (trace (snd (run Sample.hello Sample.texts
                                  BriefingGenerator
                                  Sample.with_screenshots)))))
    by (left; vm_compute; reflexivity).
  split; [exact Hcall|].
  exact (requests_are_well_formed Sample.hello Sample.texts BriefingGenerator
           Sample.with_screenshots _ _ Hcall).
Defined.

(** ** When saving succeeds and when it cannot start *)
















(** ** Size and alphabet of the encoded screenshots *)

Lemma b64_length (bs : string) :
  String.length (Base64.standard_b64encode bs)
  = 4 * ((String.length bs + 2) / 3).
Proof.
  enough (H : String.length (Base64.standard_b64encode bs)
              = 4 * ((String.length bs + 2) / 3)
              /\ (forall a,
                    String.length (Base64.standard_b64encode (String a bs))
                    = 4 * ((String.length (String a bs) + 2) / 3))
              /\ (forall a b,
                    String.length
                      (Base64.standard_b64encode (String a (String b bs)))
                    = 4 * ((String.length (String a (String b bs)) + 2) / 3)))
    by apply H.
  induction bs as [|c rest (IH0 & IH1 & IH2)].
  - repeat split; reflexivity.
  - split; [apply IH1|]. split; [intros a; apply IH2|].
    intros a b.
    cbn [Base64.standard_b64encode String.length]. rewrite IH0.
    replace (S (S (S (String.length rest))) + 2)
      with (String.length rest + 2 + 1 * 3) by lia.
    rewrite Nat.div_add by discriminate. lia.
Qed.

Lemma is_b64_char_b64char (n : N) :
  (n < 64)%N -> is_b64_char (Base64.b64char n) = true.
Proof.
  intros Hn. unfold is_b64_char.
  now rewrite Base64Facts.b64val_b64char.
Qed.

Lemma is_b64_char_ascii (c : ascii) :
  is_b64_char c = true -> is_ascii c = true.
Proof.
  intros H. destruct c as [b0 b1 b2 b3 b4 b5 b6 b7].
  destruct b0, b1, b2, b3, b4, b5, b6, b7; try reflexivity;
    vm_compute in H; discriminate H.
Qed.

Lemma string_forall_impl (p q : ascii -> bool) (t : string) :
  (forall c, p c = true -> q c = true) ->
  string_forall p t = true -> string_forall q t = true.
Proof.
  intros Hpq. induction t as [|c t IH]; [reflexivity|].
  cbn [string_forall]. intros H. apply andb_prop in H as [Hc Ht].
  apply andb_true_intro. split; [now apply Hpq | now apply IH].
Qed.

Lemma b64_alphabet (bs : string) :
  string_forall is_b64_char (Base64.standard_b64encode bs) = true.
Proof.
  enough (H : string_forall is_b64_char (Base64.standard_b64encode bs) = true
              /\ (forall a,
                    string_forall is_b64_char
                      (Base64.standard_b64encode (String a bs)) = true)
              /\ (forall a b,
                    string_forall is_b64_char
                      (Base64.standard_b64encode (String a (String b bs)))
                    = true))
    by apply H.
  induction bs as [|c rest (IH0 & IH1 & IH2)].
  - split; [reflexivity|]. split.
    + intros a. pose proof (Base64Facts.byte_val_bounded a) as Ha.
      cbn [Base64.standard_b64encode string_forall].
      rewrite !is_b64_char_b64char
        by first [ now apply Base64Facts.sextet1_lt
                 | now apply Base64Facts.sextet2_short_lt ].
      reflexivity.
    + intros a b. pose proof (Base64Facts.byte_val_bounded a) as Ha.
      pose proof (Base64Facts.byte_val_bounded b) as Hb.
      cbn [Base64.standard_b64encode string_forall].
      rewrite !is_b64_char_b64char
        by first [ now apply Base64Facts.sextet1_lt
                 | now apply Base64Facts.sextet2_lt
                 | now apply Base64Facts.sextet3_short_lt ].
      reflexivity.
  - split; [apply IH1|]. split; [intros a; apply IH2|].
    intros a b. pose proof (Base64Facts.byte_val_bounded a) as Ha.
    pose proof (Base64Facts.byte_val_bounded b) as Hb.
    pose proof (Base64Facts.byte_val_bounded c) as Hc.
    cbn [Base64.standard_b64encode string_forall].
    rewrite !is_b64_char_b64char
      by first [ now apply Base64Facts.sextet1_lt
               | now apply Base64Facts.sextet2_lt
               | now apply Base64Facts.sextet3_lt
               | now apply Base64Facts.sextet4_lt ].
    now rewrite IH0.
Qed.

(** X10: for a readable file of [n] bytes, [encode_image] returns a text
    of exactly [4 * ceil(n / 3)] characters: the encoded screenshot is a
    third larger than the file, rounded up to a multiple of four. *)
Theorem encode_image_length (path : string) (f : File) (w : World) :
  files w !! path = Some f -> readable f = true ->
  exists b64,
    fst (encode_image path w) = inr b64
    /\ String.length b64 = 4 * ((String.length (data f) + 2) / 3).
Proof.
  intros Hf Hr.
  destruct (encode_image_cases path w) as [(f' & Hf' & _ & ->)|[Hu _]].
  - rewrite Hf in Hf'; injection Hf' as <-.
    eexists. split; [reflexivity|]. apply b64_length.
  - rewrite (can_read_true _ _ _ Hf Hr) in Hu. discriminate.
Qed.

Lemma encode_image_length_witness :
  files Sample.with_screenshots !! oura_morning = Some (Sample.png_file "M")
  /\ readable (Sample.png_file "M") = true
  /\ exists b64,
       fst (encode_image oura_morning Sample.with_screenshots) = inr b64
       /\ String.length b64
          = 4 * ((String.length (data (Sample.png_file "M")) + 2) / 3).
Proof.
  split; [vm_compute; reflexivity|].
  split; [reflexivity|].
  apply (encode_image_length oura_morning (Sample.png_file "M")
           Sample.with_screenshots);
    [vm_compute; reflexivity | reflexivity].
Defined.

(** X11: whatever bytes a readable file holds, the text [encode_image]
    returns is made only of the letters, digits, [+], [/] and [=] of
    base64; every character is seven-bit, so the [.decode("utf-8")] at the
    end of [encode_image] cannot fail and changes nothing. *)
Theorem encode_image_is_ascii (path : string) (f : File) (w : World) :
  files w !! path = Some f -> readable f = true ->
  exists b64,
    fst (encode_image path w) = inr b64
    /\ string_forall is_b64_char b64 = true
    /\ string_forall is_ascii b64 = true.
Proof.
  intros Hf Hr.
  destruct (encode_image_cases path w) as [(f' & Hf' & _ & ->)|[Hu _]].
  - rewrite Hf in Hf'; injection Hf' as <-.
    eexists. split; [reflexivity|].
    pose proof (b64_alphabet (data f)) as H. split; [exact H|].
    revert H. apply string_forall_impl, is_b64_char_ascii.
  - rewrite (can_read_true _ _ _ Hf Hr) in Hu. discriminate.
Qed.

Lemma encode_image_is_ascii_witness :
  files Sample.with_screenshots !! training_log
  = Some (Sample.png_file "Man")
  /\ readable (Sample.png_file "Man") = true
  /\ exists b64,
       fst (encode_image training_log Sample.with_screenshots) = inr b64
       /\ string_forall is_b64_char b64 = true
       /\ string_forall is_ascii b64 = true.
Proof.
  split; [vm_compute; reflexivity|].
  split; [reflexivity|].
  apply (encode_image_is_ascii training_log (Sample.png_file "Man")
           Sample.with_screenshots);
    [vm_compute; reflexivity | reflexivity].
Defined.

(** ** What [generate_briefing] leaves alone *)

Lemma generate_briefing_events
    (remote : string -> Request -> error + Response)
    (texts : Script -> Prompts) (client : Client)
    (oura_screenshot_path training_log_path : string) (w : World) :
  exists evs,
    snd (generate_briefing remote texts client
           oura_screenshot_path training_log_path w)
    = add_events evs w
    /\ forallb input_event evs = true.
Proof.
  unfold generate_briefing, mbind, M_bind.
  destruct (encode_image_cases oura_screenshot_path w)
    as [(f1 & _ & _ & ->)|[_ ->]].
  2:{ exists []. cbn [snd]. now rewrite add_events_nil. }
  set (w1 := add_events _ w).
  destruct (encode_image_cases training_log_path w1)
    as [(f2 & _ & _ & ->)|[_ ->]].
  2:{ eexists. split; reflexivity. }
  unfold messages_create.
  destruct (match api_key client with
            | Some k => remote k _
            | None => inl AuthenticationError
            end) as [e|m]; cbn [snd].
  - unfold w1. rewrite add_events_add_events, log_add_events.
    eexists. split; reflexivity.
  - assert (Hs : snd (content0_text m
                        (log (EvCreate
                                (briefing_request texts
                                   (Base64.standard_b64encode (data f1))
                                   (Base64.standard_b64encode (data f2)))
                                (inr m))
                           (add_events [EvOpenRead training_log_path;
                                        EvClose training_log_path] w1)))
                 = log (EvCreate
                          (briefing_request texts
                             (Base64.standard_b64encode (data f1))
                             (Base64.standard_b64encode (data f2)))
                          (inr m))
                     (add_events [EvOpenRead training_log_path;
                                  EvClose training_log_path] w1))
      by (unfold content0_text; now destruct (content m) as [|[t|src] rest]).
    rewrite Hs. unfold w1. rewrite add_events_add_events, log_add_events.
    eexists. split; reflexivity.
Qed.

(** X12: [generate_briefing] has no output of its own: whether it
    returns the briefing or raises, it prints nothing, opens no file for
    writing, and leaves every file, the free space and the environment as
    they were. *)
Theorem generate_briefing_is_quiet
    (remote : string -> Request -> error + Response)
    (texts : Script -> Prompts) (client : Client)
    (oura_screenshot_path training_log_path : string) (w : World) :
  files (snd (generate_briefing remote texts client
                oura_screenshot_path training_log_path w)) = files w
  /\ free_space (snd (generate_briefing remote texts client
                        oura_screenshot_path training_log_path w))
     = free_space w
  /\ environ (snd (generate_briefing remote texts client
                     oura_screenshot_path training_log_path w))
     = environ w
  /\ stdout (snd (generate_briefing remote texts client
                    oura_screenshot_path training_log_path w))
     = stdout w
  /\ (forall path,
        In (EvOpenWrite path)
           (trace (snd (generate_briefing remote texts client
                          oura_screenshot_path training_log_path w))) ->
        In (EvOpenWrite path) (trace w)).
Proof.
  destruct (generate_briefing_events remote texts client
              oura_screenshot_path training_log_path w) as (evs & -> & Hin).
  unfold stdout. cbn [files free_space environ trace add_events].
  repeat split.
  - rewrite stdout_of_app, (stdout_of_input _ Hin).
    apply string_app_nil_r.
  - intros path Hp. apply in_app_or in Hp as [Hp|Hp]; [assumption|].
    now apply input_not_open_write in Hp.
Qed.
